(** * nfldfs: the data loader, the game-time filter and the lineup builder

    A shallow embedding of [trial.py]: the projection heuristic
    ([safe_float], [compute_adjusted_proj]), the game-time filter
    ([filter_by_game_time]), the loader ([parse_salary], [load_players]),
    the lineup builder ([build_lineups]), the display of positions
    ([display_pos]) and the two routes, with the Python builtins they call
    ([float], [int], [round], [str.strip], [str.split], ...) modelled on
    binary64 floats, unbounded integers and ASCII strings. *)

From Stdlib Require Import ZArith Floats Ascii String List Lia Bool.
From Stdlib Require Import DecimalString DecimalZ OrdersEx.
From stdpp Require Import gmap strings list fin_maps sorting.

Local Open Scope Z_scope.

(** ** Python values and exceptions *)

(** The exceptions the modelled code can meet.  [LibraryError] stands for
    any [Exception] raised inside the lineup optimizer; its payload is the
    text [str(e)]. *)
Inductive exn :=
  | TypeError
  | ValueError
  | OverflowError
  | KeyError
  | AttributeError
  | IndexError
  | LibraryError (msg : string).

(** The outcome of a Python expression: a value, or a raised exception. *)
Inductive res (A : Type) :=
  | Ok (a : A)
  | Raise (e : exn).
Arguments Ok {A} a.
Arguments Raise {A} e.

#[global] Instance res_ret : MRet res := fun A a => Ok a.
#[global] Instance res_bind : MBind res := fun A B k r =>
  match r with
  | Ok a => k a
  | Raise e => Raise e
  end.

(** A cell of a pandas row, or any other Python object the code handles:
    [None], a [bool], an [int], a [float] (binary64, NaN included) or an
    ASCII [str]. *)
Inductive pyval :=
  | PNone
  | PBool (b : bool)
  | PInt (z : Z)
  | PFloat (f : float)
  | PStr (s : string).

(** ** Binary64 arithmetic behind [float], [int] and [round] *)

Module PyFloat.

(** The binary64 number nearest to [(-1)^neg * n / d] (ties to even),
    for [0 <= n] and [0 < d].  The quotient is first cut to at least 63
    significant bits with a sticky bit, then rounded once. *)
Definition of_ratio (neg : bool) (n d : Z) : float :=
  if n =? 0 then (if neg then PrimFloat.neg_zero else PrimFloat.zero)
  else
    let k := Z.max 0 (64 + Z.log2 d - Z.log2 n) in
    let num := n * 2 ^ k in
    let sticky := if num mod d =? 0 then 0 else 1 in
    let m := 2 * (num / d) + sticky in
    SF2Prim (binary_normalize prec emax (if neg then - m else m)
               (- (k + 1)) false).

(** [float(z)] for a Python int: correctly rounded, [OverflowError] when
    the integer is beyond the binary64 range. *)
Definition of_int (z : Z) : res float :=
  let f := of_ratio (z <? 0) (Z.abs z) 1 in
  if is_infinity f then Raise OverflowError else Ok f.

(** The exact value of a finite nonzero float as a fraction [n / d]. *)
Definition ratio_of (m : positive) (e : Z) : Z * Z :=
  if 0 <=? e then (Z.pos m * 2 ^ e, 1) else (Z.pos m, 2 ^ (- e)).

(** [int(f)]: truncation toward zero; [ValueError] on NaN and
    [OverflowError] on an infinity. *)
Definition to_int (f : float) : res Z :=
  match Prim2SF f with
  | S754_nan => Raise ValueError
  | S754_infinity _ => Raise OverflowError
  | S754_zero _ => Ok 0
  | S754_finite s m e =>
      let '(n, d) := ratio_of m e in
      Ok (if s then - (n / d) else n / d)
  end.

(** [a / b] rounded to the nearest integer, ties to even ([0 <= a], [0 < b]). *)
Definition div_half_even (a b : Z) : Z :=
  let q := a / b in
  let r := a mod b in
  match 2 * r ?= b with
  | Lt => q
  | Gt => q + 1
  | Eq => if Z.even q then q else q + 1
  end.

(** [round(f, 2)]: the exact value of [f] is rounded half-even to two
    decimals and the decimal is converted back to the nearest float.
    NaN, infinities and zeros round to themselves; the sign is kept. *)
Definition round2 (f : float) : float :=
  match Prim2SF f with
  | S754_finite s m e =>
      let '(n, d) := ratio_of m e in
      of_ratio s (div_half_even (100 * n) d) 100
  | _ => f
  end.

End PyFloat.

(** ** ASCII strings: the [str] methods the code calls *)

Module PyStr.

Definition code (a : ascii) : Z := Z.of_N (N_of_ascii a).

(** [str.isspace] on one ASCII character: tab to carriage return, the
    four separators 0x1c..0x1f and the space. *)
Definition is_space (a : ascii) : bool :=
  let n := code a in
  ((9 <=? n) && (n <=? 13)) || ((28 <=? n) && (n <=? 32)).

Definition is_digit (a : ascii) : bool :=
  let n := code a in (48 <=? n) && (n <=? 57).

Definition digit_val (a : ascii) : Z := code a - 48.

Definition upper_char (a : ascii) : ascii :=
  let n := code a in
  if (97 <=? n) && (n <=? 122) then ascii_of_N (Z.to_N (n - 32)) else a.

Definition chars (s : string) : list ascii := list_ascii_of_string s.
Definition text (l : list ascii) : string := string_of_list_ascii l.

(** [s.upper()] *)
Definition upper (s : string) : string := text (upper_char <$> chars s).

Fixpoint lstrip_chars (l : list ascii) : list ascii :=
  match l with
  | a :: l' => if is_space a then lstrip_chars l' else l
  | [] => []
  end.

Definition strip_chars (l : list ascii) : list ascii :=
  rev (lstrip_chars (rev (lstrip_chars l))).

(** [s.strip()] *)
Definition strip (s : string) : string := text (strip_chars (chars s)).

(** [s.replace(c, new)] for a one-character pattern [c]. *)
Definition replace (c : ascii) (new : string) (s : string) : string :=
  text (flat_map (fun a => if Ascii.eqb a c then chars new else [a]) (chars s)).

(** [c in s] for a one-character [c]. *)
Definition contains (c : ascii) (s : string) : bool :=
  existsb (Ascii.eqb c) (chars s).

Fixpoint split_chars (c : ascii) (l : list ascii) : list (list ascii) :=
  match l with
  | [] => [[]]
  | a :: l' =>
      match split_chars c l' with
      | w :: ws => if Ascii.eqb a c then [] :: w :: ws else (a :: w) :: ws
      | [] => [[a]]
      end
  end.

(** [s.split(c)] for a one-character separator [c]. *)
Definition split (c : ascii) (s : string) : list string :=
  text <$> split_chars c (chars s).

(** [s[:n]] and [s[-n:]] for [0 < n]. *)
Definition prefix (n : nat) (s : string) : string := text (take n (chars s)).
Definition suffix (n : nat) (s : string) : string :=
  let l := chars s in text (drop (length l - n) l).

(** The decimal text of an integer, as [str(z)] prints it. *)
Definition of_Z (z : Z) : string := NilZero.string_of_int (Z.to_int z).

(** Digit-group underscores: each one must stand between two digits;
    they are removed, or the literal is rejected. *)
Fixpoint drop_underscores (prev : option ascii) (l : list ascii)
  : option (list ascii) :=
  match l with
  | [] => if bool_decide (prev = Some "_"%char) then None else Some []
  | a :: l' =>
      if Ascii.eqb a "_" then
        match prev with
        | Some p => if is_digit p then drop_underscores (Some a) l' else None
        | None => None
        end
      else if bool_decide (prev = Some "_"%char) && negb (is_digit a) then None
      else cons a <$> drop_underscores (Some a) l'
  end.

Definition digits_val (l : list ascii) : Z :=
  fold_left (fun acc a => 10 * acc + digit_val a) l 0.

(** The longest prefix of digits, and what follows it. *)
Fixpoint span_digits (l : list ascii) : list ascii * list ascii :=
  match l with
  | a :: l' =>
      if is_digit a then let '(ds, r) := span_digits l' in (a :: ds, r)
      else ([], l)
  | [] => ([], [])
  end.

Definition split_sign (l : list ascii) : bool * list ascii :=
  match l with
  | "-"%char :: l' => (true, l')
  | "+"%char :: l' => (false, l')
  | _ => (false, l)
  end.

(** The whitespace [int] and [float] skip around the number in an ASCII
    text, C's [isspace]: tab to carriage return and the space.  The four
    separators 0x1c..0x1f, which [str.strip] removes, are not skipped:
    [int] and [float] reject a text that has one. *)
Definition is_c_space (a : ascii) : bool :=
  let n := code a in
  ((9 <=? n) && (n <=? 13)) || (n =? 32).

Fixpoint lskip_chars (l : list ascii) : list ascii :=
  match l with
  | a :: l' => if is_c_space a then lskip_chars l' else l
  | [] => []
  end.

Definition skip_chars (l : list ascii) : list ascii :=
  rev (lskip_chars (rev (lskip_chars l))).

(** The most digits [int] reads from a text: the default of
    [sys.int_max_str_digits], which the program leaves as it is. *)
Definition int_max_str_digits : Z := 4300.

(** [int(s)] in base 10: surrounding whitespace, an optional sign, and
    digits with single underscores between them, no more of them than
    [int_max_str_digits]. *)
Definition to_int (s : string) : res Z :=
  match drop_underscores None (skip_chars (chars s)) with
  | None => Raise ValueError
  | Some l =>
      let '(neg, body) := split_sign l in
      match span_digits body with
      | ((_ :: _) as ds, []) =>
          if int_max_str_digits <? Z.of_nat (length ds) then Raise ValueError
          else Ok (if neg then - digits_val ds else digits_val ds)
      | _ => Raise ValueError
      end
  end.

(** The exponent part of a float literal: [e] or [E], an optional sign
    and at least one digit, up to the end of the text. *)
Definition exponent (l : list ascii) : option Z :=
  match l with
  | [] => Some 0
  | a :: l' =>
      if Ascii.eqb (upper_char a) "E" then
        let '(neg, body) := split_sign l' in
        match span_digits body with
        | ((_ :: _) as ds, []) =>
            Some (if neg then - digits_val ds else digits_val ds)
        | _ => None
        end
      else None
  end.

(** [float(s)]: surrounding whitespace, an optional sign, then [inf],
    [infinity] or [nan] in any case, or a decimal literal with an optional
    fraction and exponent, rounded to the nearest binary64 number. *)
Definition to_float (s : string) : res float :=
  match drop_underscores None (skip_chars (chars s)) with
  | None => Raise ValueError
  | Some l =>
      let '(neg, body) := split_sign l in
      let word := text (upper_char <$> body) in
      if String.eqb word "INF" || String.eqb word "INFINITY" then
        Ok (if neg then neg_infinity else infinity)
      else if String.eqb word "NAN" then Ok nan
      else
        let '(ip, r1) := span_digits body in
        let '(fp, r2) :=
          match r1 with
          | "."%char :: r => span_digits r
          | _ => ([], r1)
          end in
        match ip ++ fp, exponent r2 with
        | (_ :: _) as ds, Some e =>
            let e10 := e - Z.of_nat (length fp) in
            Ok (if 0 <=? e10
                then PyFloat.of_ratio neg (digits_val ds * 10 ^ e10) 1
                else PyFloat.of_ratio neg (digits_val ds) (10 ^ (- e10)))
        | _, _ => Raise ValueError
        end
  end.

End PyStr.


(** ** Builtins on Python values *)

(** What the model takes from outside the repository as it stands: the
    text [repr] prints for a finite float, and the element-wise result of
    [pandas.to_numeric(..., errors="coerce")] as a float64, NaN where pandas
    finds no number. *)
Class Runtime := {
  float_repr : float -> string;
  to_numeric : pyval -> float
}.

(** [str(v)], also what an f-string and [astype(str)] print.  The
    integers of a frame are 64-bit, far below the 4300 digits past which
    [str] raises. *)
Definition py_str `{Runtime} (v : pyval) : string :=
  match v with
  | PNone => "None"
  | PBool b => if b then "True" else "False"
  | PInt z => PyStr.of_Z z
  | PFloat f =>
      if is_nan f then "nan"
      else if is_infinity f then (if get_sign f then "-inf" else "inf")
      else float_repr f
  | PStr s => s
  end.

(** [float(v)] *)
Definition py_float (v : pyval) : res float :=
  match v with
  | PNone => Raise TypeError
  | PBool b => Ok (if b then 1 else 0)%float
  | PInt z => PyFloat.of_int z
  | PFloat f => Ok f
  | PStr s => PyStr.to_float s
  end.

(** [int(v)] *)
Definition py_int (v : pyval) : res Z :=
  match v with
  | PNone => Raise TypeError
  | PBool b => Ok (if b then 1 else 0)
  | PInt z => Ok z
  | PFloat f => PyFloat.to_int f
  | PStr s => PyStr.to_int s
  end.

(** Truth value of [v], as [or] and [if] test it (NaN is true). *)
Definition py_truthy (v : pyval) : bool :=
  match v with
  | PNone => false
  | PBool b => b
  | PInt z => negb (z =? 0)
  | PFloat f => negb (is_zero f)
  | PStr s => negb (String.eqb s "")
  end.

(** [pandas.isna] on one cell. *)
Definition isna (v : pyval) : bool :=
  match v with
  | PNone => true
  | PFloat f => is_nan f
  | _ => false
  end.

(** [row.get(key, default)] on a pandas row (or a dict). *)
Definition get (row : gmap string pyval) (key : string) (dflt : pyval) : pyval :=
  default dflt (row !! key).

(** ** Utility functions (trial.py, lines 47-65) *)

Definition safe_float (val : pyval) (dflt : float) : res float :=
  match py_float val with
  | Ok f => Ok f
  | Raise TypeError | Raise ValueError => Ok dflt
  | Raise e => Raise e
  end.

Definition compute_adjusted_proj (row : gmap string pyval) : res float :=
  proj ← safe_float (get row "FINAL PROJECTION" (PInt 0)) 0;
  dvp ← safe_float (get row "DVP" (PInt 0)) 0;
  l5 ← safe_float (get row "L5 AVG" (PInt 0)) 0;
  szn ← safe_float (get row "SZ AVG" (PInt 0)) 0;
  let adj := proj in
  let adj := if (dvp <? 5)%float then (adj - 1.5)%float else adj in
  let adj :=
    if (abs (l5 - szn) <=? 5)%float && (14 <? l5)%float
    then (adj + 1.5)%float else adj in
  let adj := (adj * 0.75)%float in
  Ok (PyFloat.round2 adj).

(** ** Tables *)

(** A row of the working table: its index label ([row.name]), the
    [unique_id] column, which [load_players] always fills with a [str], and
    the other cells by column name. *)
Record prow := {
  row_name : Z;
  unique_id : string;
  cells : gmap string pyval
}.

Definition set_cell (col : string) (v : pyval) (r : prow) : prow :=
  {| row_name := row_name r; unique_id := unique_id r;
     cells := <[col := v]> (cells r) |}.

(** ** Game-time filter (trial.py, lines 69-99) *)

(** The nested [parse_hour_minute]: every exception of the [try] body
    ends in [None]. *)
Definition parse_hour_minute (game_time_str : pyval) : option Z :=
  match game_time_str with
  | PStr s =>
      if negb (PyStr.contains ":" s) then None
      else
        let parts := PyStr.split ":" (PyStr.strip s) in
        let body : res Z :=
          p0 ← from_option Ok (Raise IndexError) (parts !! 0%nat);
          hour ← PyStr.to_int p0;
          p1 ← from_option Ok (Raise IndexError) (parts !! 1%nat);
          minute ← PyStr.to_int (PyStr.prefix 2 p1);
          let am_pm := PyStr.upper (PyStr.suffix 2 (PyStr.strip s)) in
          let hour :=
            if String.eqb am_pm "PM" && negb (hour =? 12) then hour + 12
            else if String.eqb am_pm "AM" && (hour =? 12) then 0
            else hour in
          Ok (hour * 60 + minute) in
        match body with
        | Ok m => Some m
        | Raise _ => None
        end
  | _ => None
  end.

(** The [GAME_MIN] cell that [apply(parse_hour_minute)] stores. *)
Definition game_min_cell (r : prow) : pyval :=
  match parse_hour_minute (get (cells r) "GAME TIME" PNone) with
  | Some m => PInt m
  | None => PNone
  end.

(** [series >= k] and [series <= k] on one cell: a missing value compares
    false. *)
Definition cell_ge (v : pyval) (k : Z) : bool :=
  match v with
  | PInt m => k <=? m
  | _ => false
  end.

Definition cell_le (v : pyval) (k : Z) : bool :=
  match v with
  | PInt m => m <=? k
  | _ => false
  end.

(** Line 88: the row with its [GAME_MIN] cell. *)
Definition with_game_min (r : prow) : prow :=
  set_cell "GAME_MIN" (game_min_cell r) r.

(** [filter_by_game_time] on a table that has the GAME TIME column, as
    every table of [load_players] has (lines 109-111); [df.copy()] is the
    fresh list.  Line 97 repeats line 91 for every other filter name. *)
Definition filter_by_game_time (df : list prow) (time_filter : string)
  : list prow :=
  let df := with_game_min <$> df in
  let game_min r := get (cells r) "GAME_MIN" PNone in
  if String.eqb time_filter "all" then
    filter (fun r => negb (isna (game_min r))) df
  else if String.eqb time_filter "1pm" then
    filter (fun r => cell_ge (game_min r) (12 * 60 + 30)
                     && cell_le (game_min r) (13 * 60 + 30)) df
  else if String.eqb time_filter "late" then
    filter (fun r => cell_ge (game_min r) (16 * 60)) df
  else
    filter (fun r => negb (isna (game_min r))) df.

(** ** Load players (trial.py, lines 103-134) *)

Definition DISPLAY_COLUMNS : list string :=
  ["NAME"; "SALARY"; "TEAM"; "OPP"; "DVP"; "VALUE"; "L5 AVG"; "L10 AVG";
   "SZ AVG"; "O/U"; "TM PTS"; "OWN %"; "ADJ PROJECTION"; "POS"; "GAME TIME"].

Definition COLUMN_MAP : list (string * string) :=
  [("PROJECTED POINTS", "FINAL PROJECTION"); ("PLAYER", "NAME");
   ("GAME TIME", "GAME TIME"); ("TEAM", "TEAM"); ("OPP", "OPP");
   ("DVP", "DVP"); ("VALUE", "VALUE"); ("L5 AVG", "L5 AVG");
   ("L10 AVG", "L10 AVG"); ("SZ AVG", "SZ AVG"); ("O/U", "O/U");
   ("TM PTS", "TM PTS"); ("OWN %", "OWN %"); ("SALARY", "SALARY");
   ("POSITION", "POS")].

(** What [pd.read_csv] hands over: the header, and for every row its index
    label and its cells in header order. *)
Record frame := {
  columns : list string;
  rows : list (Z * list pyval)
}.

(** Line 117: the text [float] is given. *)
Definition salary_text `{Runtime} (x : pyval) : string :=
  PyStr.replace "k" "" (PyStr.replace "," "" (PyStr.replace "$" "" (py_str x))).

(** The nested [parse_salary]: every exception of the [try] body ends in 0. *)
Definition parse_salary `{Runtime} (x : pyval) : Z :=
  let body : res Z :=
    let val := salary_text x in
    f ← PyStr.to_float val;
    if (f <? 100)%float then PyFloat.to_int (f * 1000)%float
    else PyFloat.to_int f in
  match body with
  | Ok z => z
  | Raise _ => 0
  end.

(** Lines 105-107: headers stripped and upper-cased, renamed through
    [COLUMN_MAP] with upper-cased keys, duplicates dropped but the first. *)
Definition rename_column (c : string) : string :=
  default c (snd <$> find (fun kv => String.eqb (PyStr.upper (fst kv)) c) COLUMN_MAP).

Definition normalize_columns (cols : list string) : list string :=
  (fun c => rename_column (PyStr.upper (PyStr.strip c))) <$> cols.

(** The cells of one row under the normalized header; of two columns with
    one name the first is kept. *)
Definition row_of_cells (cols : list string) (vals : list pyval)
  : gmap string pyval :=
  list_to_map (zip cols vals).

(** Lines 109-111: a display column that is absent is added, empty. *)
Definition add_missing_columns (cols : list string) (r : gmap string pyval)
  : gmap string pyval :=
  foldl (fun r col => if bool_decide (col ∈ cols) then r else <[col := PStr ""]> r)
        r DISPLAY_COLUMNS.

(** [series > 0] on one cell of a numeric column. *)
Definition cell_gt0 (v : pyval) : bool :=
  match v with
  | PInt z => 0 <? z
  | PFloat f => (0 <? f)%float
  | PBool b => b
  | _ => false
  end.

(** [fillna(0)] on one float64 cell. *)
Definition fillna0 (f : float) : float := if is_nan f then 0%float else f.

(** [mapM]: apply a raising function along a list, stopping at the first
    exception. *)
Fixpoint map_res {A B} (f : A -> res B) (l : list A) : res (list B) :=
  match l with
  | [] => Ok []
  | a :: l' => b ← f a; bs ← map_res f l'; Ok (b :: bs)
  end.

(** The strings of a list in ascending order, as [sorted] returns them. *)
Definition str_le (s t : string) : Prop := Is_true (String.leb s t).
#[global] Instance str_le_dec : RelDecision str_le := fun s t => Is_true_dec _.
Definition sorted_strs (l : list string) : list string := merge_sort str_le l.

(** Line 132: the team codes present, upper-cased, distinct, non-blank,
    sorted. *)
Definition team_list `{Runtime} (df : list (Z * gmap string pyval)) : list string :=
  let teams := (fun r => get r.2 "TEAM" PNone) <$> df in
  let names := PyStr.upper <$> (py_str <$> filter (fun v => Is_true (negb (isna v))) teams) in
  sorted_strs
    (filter (fun team => Is_true (negb (String.eqb (PyStr.strip team) "")))
            (remove_dups names)).

(** The steps of [load_players] on one row, a pair of the index label
    and the cells. *)

(** Lines 105-111: the row under the normalized header [cols], with the
    absent display columns added. *)
Definition read_row (cols : list string) (r : Z * list pyval)
  : Z * gmap string pyval :=
  (r.1, add_missing_columns cols (row_of_cells cols r.2)).

(** Line 123 *)
Definition set_salary `{Runtime} (r : Z * gmap string pyval)
  : Z * gmap string pyval :=
  (r.1, <["SALARY" := PInt (parse_salary (get r.2 "SALARY" PNone))]> r.2).

(** Line 125 *)
Definition salary_positive (r : Z * gmap string pyval) : Prop :=
  Is_true (cell_gt0 (get r.2 "SALARY" PNone)).

(** Line 126 *)
Definition set_projection `{Runtime} (r : Z * gmap string pyval)
  : Z * gmap string pyval :=
  (r.1, <["FINAL PROJECTION" :=
            PFloat (fillna0 (to_numeric (get r.2 "FINAL PROJECTION" PNone)))]> r.2).

(** Line 127 *)
Definition set_adjusted (r : Z * gmap string pyval)
  : res (Z * gmap string pyval) :=
  adj ← compute_adjusted_proj r.2;
  Ok (r.1, <["ADJ PROJECTION" := PFloat adj]> r.2).

(** Line 128 *)
Definition projection_positive (r : Z * gmap string pyval) : Prop :=
  Is_true (cell_gt0 (get r.2 "FINAL PROJECTION" PNone)).

(** Line 130 *)
Definition set_pos `{Runtime} (r : Z * gmap string pyval)
  : Z * gmap string pyval :=
  (r.1, <["POS" := PStr (PyStr.upper (PyStr.strip (py_str (get r.2 "POS" PNone))))]> r.2).

(** Line 131: the row with its [unique_id], the name, an underscore and
    the index label. *)
Definition table_row `{Runtime} (r : Z * gmap string pyval) : prow :=
  {| row_name := r.1;
     unique_id := py_str (get r.2 "NAME" (PStr "")) +:+ "_" +:+ PyStr.of_Z r.1;
     cells := r.2 |}.

(** [load_players] from the frame [pd.read_csv] returned.  Without a
    FINAL PROJECTION column, line 126 calls [fillna] on the integer 0 and
    raises [AttributeError]. *)
Definition load_players `{Runtime} (df_raw : frame)
  : res (list prow * list string) :=
  let cols := normalize_columns (columns df_raw) in
  let df := read_row cols <$> rows df_raw in
  let cols := cols ++ filter (fun c => c ∉ cols) DISPLAY_COLUMNS in
  let df := if bool_decide ("SALARY" ∈ cols) then set_salary <$> df else df in
  let df := filter salary_positive df in
  if bool_decide ("FINAL PROJECTION" ∈ cols) then
    let df := set_projection <$> df in
    df ← map_res set_adjusted df;
    let df := filter projection_positive df in
    let df := set_pos <$> df in
    let all_teams := team_list df in
    Ok (table_row <$> df, all_teams)
  else Raise AttributeError.

(** ** Build lineups (trial.py, lines 138-202) *)

(** The arguments of [pydfs_lineup_optimizer.Player(...)]. *)
Record Player := {
  player_id : string;
  first_name : pyval;
  last_name : string;
  positions : list string;
  team : pyval;
  salary : Z;
  fppg : float
}.

(** A lineup the optimizer yields, read through [lineup.players]. *)
Record Lineup := { players : list Player }.

(** The arguments of [PositionsStack(...)]: for every stacked slot the
    positions that may fill it, then the two keyword arguments. *)
Record PositionsStack := {
  stack_positions : list (list string);
  for_positions : list string;
  stack_team_of : string
}.

(** The optimizer object of [pydfs_lineup_optimizer], external to the
    repository: its state and the five calls [build_lineups] makes.  A call
    either returns or raises; [opt_add_stack], which stands for building the
    [PositionsStack] and adding it, also gives the state it leaves behind
    when it raises, since the build goes on from there.  [opt_optimize] is
    the generator: the lineups it yields, then the exception it ends with,
    if any. *)
Class Optimizer := {
  optimizer : Type;
  get_optimizer : optimizer;
  opt_load_players : optimizer -> list Player -> res optimizer;
  opt_add_stack : optimizer -> PositionsStack -> optimizer * option exn;
  opt_set_total_teams : optimizer -> Z -> Z -> res optimizer;
  opt_add_player_to_lineup : optimizer -> Player -> res optimizer;
  opt_optimize : optimizer -> Z -> list Lineup * option exn
}.

(** [str(e)], as [print] shows the exception. *)
Definition exn_text (e : exn) : string :=
  match e with
  | TypeError => "TypeError"
  | ValueError => "ValueError"
  | OverflowError => "OverflowError"
  | KeyError => "KeyError"
  | AttributeError => "AttributeError"
  | IndexError => "IndexError"
  | LibraryError msg => msg
  end.

Definition DK_NFL_SLOTS : list string :=
  ["QB"; "RB"; "RB"; "WR"; "WR"; "WR"; "TE"; "FLEX"; "DST"].

(** Lines 148-162, one turn of the loop over the rows: the player record,
    or [None] where the row is skipped by [continue]. *)
Definition player_of_row `{Runtime} (row : prow) : res (option Player) :=
  let positions :=
    (fun p => PyStr.upper (PyStr.strip p))
      <$> PyStr.split "/" (py_str (get (cells row) "POS" (PStr ""))) in
  let sal := get (cells row) "SALARY" (PInt 0) in
  salary ← py_int (if py_truthy sal then sal else PInt 0);
  fppg ← safe_float (get (cells row) "ADJ PROJECTION" (PInt 0)) 0;
  if (salary <=? 0) || (fppg <=? 0)%float
     || bool_decide (positions = []) || bool_decide (positions = [""])
  then Ok None
  else Ok (Some {| player_id := unique_id row;
                   first_name := get (cells row) "NAME" (PStr "");
                   last_name := "";
                   positions := positions;
                   team := get (cells row) "TEAM" (PStr "");
                   salary := salary;
                   fppg := fppg |}).

Definition build_players `{Runtime} (df : list prow) : res (list Player) :=
  ps ← map_res player_of_row df;
  Ok (omap (M := list) id (ps : list (option Player))).

(** Lines 169-175: the stack requested for [stack_team]. *)
Definition stack_request (stack_team : string) : PositionsStack :=
  {| stack_positions := [["QB"]; ["RB"; "WR"; "TE"]; ["RB"; "WR"; "TE"]];
     for_positions := ["QB"; "RB"; "WR"; "TE"];
     stack_team_of := stack_team |}.

(** Lines 181-185: the locked ids, in order; [next(..., None)] takes the
    first player with the id. *)
Fixpoint lock_players `{Optimizer} (players : list Player)
    (locked_ids : list string) (o : optimizer) : res optimizer :=
  match locked_ids with
  | [] => Ok o
  | pid :: ids =>
      match find (fun pl => String.eqb (player_id pl) pid) players with
      | Some p => o' ← opt_add_player_to_lineup o p; lock_players players ids o'
      | None => lock_players players ids o
      end
  end.

(** The key a lineup is remembered by: [tuple(sorted(ids))]. *)
Definition lineup_key (lineup : Lineup) : list string :=
  sorted_strs (player_id <$> players lineup).

(** Lines 188-200: the loop over the generator, with the lineups kept so
    far and the keys seen; it returns what was printed and
    [unique_lineups]. *)
Fixpoint generate (num_lineups : Z) (cands : list Lineup) (fin : option exn)
    (unique_lineups : list (list (string * Player)))
    (seen_lineups : gset (list string))
  : list string * list (list (string * Player)) :=
  match cands with
  | [] =>
      (match fin with
       | Some e => ["Optimizer error: " +:+ exn_text e]
       | None => []
       end, unique_lineups)
  | lineup :: rest =>
      let ids := lineup_key lineup in
      if bool_decide (ids ∈ seen_lineups) then
        generate num_lineups rest fin unique_lineups seen_lineups
      else
        let seen_lineups := {[ ids ]} ∪ seen_lineups in
        let slot_players := zip DK_NFL_SLOTS (players lineup) in
        let unique_lineups := unique_lineups ++ [slot_players] in
        if num_lineups <=? Z.of_nat (length unique_lineups)
        then ([], unique_lineups)
        else generate num_lineups rest fin unique_lineups seen_lineups
  end.

(** Lines 139-164: the excluded rows leave, the player records are built
    and loaded into a new optimizer. *)
Definition load_pool `{Runtime} `{Optimizer} (df : list prow)
    (excluded_ids : list string) : res (list Player * optimizer) :=
  let o := get_optimizer in
  let df :=
    if bool_decide (excluded_ids = []) then df
    else filter (fun r => unique_id r ∉ excluded_ids) df in
  players ← build_players df;
  o ← opt_load_players o players;
  Ok (players, o).

(** Lines 166-177: the stack, when a team is given; an exception is
    printed and swallowed. *)
Definition apply_stack `{Optimizer} (o : optimizer) (stack_team : string)
  : list string * optimizer :=
  if String.eqb stack_team "" then ([], o)
  else
    match opt_add_stack o (stack_request stack_team) with
    | (o', Some e) => (["Stacking error: " +:+ exn_text e], o')
    | (o', None) => ([], o')
    end.

(** Lines 179-185: the team bounds and the locks. *)
Definition configure `{Optimizer} (players : list Player) (o : optimizer)
    (locked_ids : list string) : res optimizer :=
  o ← opt_set_total_teams o 4 6;
  lock_players players locked_ids o.

(** Lines 139-185, all that comes before the generation: what was
    printed, and the player records with the optimizer as configured, or
    the exception that ends the build. *)
Definition prepare `{Runtime} `{Optimizer} (df : list prow)
    (locked_ids excluded_ids : list string) (stack_team : string)
  : list string * res (list Player * optimizer) :=
  match load_pool df excluded_ids with
  | Raise e => ([], Raise e)
  | Ok (players, o) =>
      let '(log1, o) := apply_stack o stack_team in
      match configure players o locked_ids with
      | Raise e => (log1, Raise e)
      | Ok o => (log1, Ok (players, o))
      end
  end.

(** [build_lineups]: what it prints, and what it returns or raises.
    [None] and the empty list are one for [locked_ids] and [excluded_ids],
    [None] and the empty text for [stack_team]. *)
Definition build_lineups `{Runtime} `{Optimizer} (df : list prow)
    (num_lineups : Z) (locked_ids excluded_ids : list string)
    (stack_team : string)
  : list string * res (list (list (string * Player))) :=
  match prepare df locked_ids excluded_ids stack_team with
  | (log1, Raise e) => (log1, Raise e)
  | (log1, Ok (players, o)) =>
      let '(cands, fin) := opt_optimize o (num_lineups * 3) in
      let '(log2, unique_lineups) := generate num_lineups cands fin [] ∅ in
      (log1 ++ log2, Ok unique_lineups)
  end.

(** ** Display of positions (trial.py, lines 39-44) *)

(** [sep.join(l)] *)
Fixpoint join_strs (sep : string) (l : list string) : string :=
  match l with
  | [] => ""
  | [s] => s
  | s :: l' => s +:+ sep +:+ join_strs sep l'
  end.

(** [sorted(set(l))]: the order in which the set is walked does not show
    in the sorted list. *)
Definition sorted_set (l : list string) : list string :=
  sorted_strs (elements (list_to_set l : gset string)).

(** [display_pos]: a text of positions separated by "/" or ",", or any
    other iterable of position names. *)
Definition display_pos (positions : string + list string) : string :=
  let pos_list :=
    match positions with
    | inl s =>
        (fun p => PyStr.upper (PyStr.strip p))
          <$> filter (fun p => PyStr.strip p <> "")
                     (PyStr.split "," (PyStr.replace "/" "," s))
    | inr l => PyStr.upper <$> l
    end in
  join_strs "/" (sorted_set pos_list).

(** The names [display_pos] finds in a text. *)
Definition position_tokens (s : string) : list string :=
  (fun p => PyStr.upper (PyStr.strip p))
    <$> filter (fun p => PyStr.strip p <> "")
               (PyStr.split "," (PyStr.replace "/" "," s)).

(** [join_strs] on the characters. *)
Fixpoint join_chars (sep : list ascii) (L : list (list ascii)) : list ascii :=
  match L with
  | [] => []
  | [t] => t
  | t :: L' => t ++ sep ++ join_chars sep L'
  end.

(** A name as [display_pos] shows it: stripped, upper-cased, not empty,
    with no comma and no slash in it. *)
Definition clean_token (t : string) : Prop :=
  PyStr.strip t = t /\ PyStr.upper t = t /\ t <> "" /\
  ","%char ∉ PyStr.chars t /\ "/"%char ∉ PyStr.chars t.

(** ** Flask routes (trial.py, lines 206-271) *)

(** The session, which only [player_pool] writes: its five keys, each
    absent or holding what line 222-226 stored. *)
Record Session := {
  sess_locked_players : option (list string);
  sess_excluded_players : option (list string);
  sess_num_lineups : option Z;
  sess_time_filter : option string;
  sess_stack_team : option string
}.

Definition empty_session : Session :=
  {| sess_locked_players := None; sess_excluded_players := None;
     sess_num_lineups := None; sess_time_filter := None;
     sess_stack_team := None |}.

(** [request.form.getlist(key)] and [request.form.get(key)] on the
    submitted fields, each key with the values sent for it. *)
Definition form_getlist (form : gmap string (list string)) (key : string)
  : list string :=
  default [] (form !! key).

Definition form_get (form : gmap string (list string)) (key : string)
  : option string :=
  form !! key ≫= head.

(** Lines 231-232 and 260-261: the excluded rows leave the table. *)
Definition exclude_players (excluded_players : list string) (df : list prow)
  : list prow :=
  if bool_decide (excluded_players = []) then df
  else filter (fun r => unique_id r ∉ excluded_players) df.

(** What a route answers with. *)
Inductive response :=
  | RedirectLineups
  | PlayerPoolPage (data : list (gmap string pyval)) (teams : list string)
      (locked_players excluded_players : list string) (num_lineups : Z)
      (time_filter stack_team : string)
  | LineupsPage (lineups : list (list (string * Player))) (num_lineups : Z)
      (time_filter : string).

(** One row for the template: [fillna("")] and [to_dict], the id among
    the cells. *)
Definition to_record (r : prow) : gmap string pyval :=
  (fun v => if isna v then PStr "" else v)
    <$> <["unique_id" := PStr (unique_id r)]> (cells r).

(** [player_pool] with [request.method] and the form: the session it
    leaves and the response, or the exception. *)
Definition player_pool `{Runtime} (df_raw : frame)
    (post : option (gmap string (list string))) (session : Session)
  : Session * res response :=
  match load_players df_raw with
  | Raise e => (session, Raise e)
  | Ok (df, teams) =>
      let locked_players := default [] (sess_locked_players session) in
      let excluded_players := default [] (sess_excluded_players session) in
      let num_lineups := default 1 (sess_num_lineups session) in
      let time_filter := default "all" (sess_time_filter session) in
      let stack_team := default "" (sess_stack_team session) in
      match post with
      | Some form =>
          let locked_players := form_getlist form "lock_player" in
          let excluded_players := form_getlist form "exclude_player" in
          match from_option PyStr.to_int (Ok 1) (form_get form "num_lineups") with
          | Raise e => (session, Raise e)
          | Ok num_lineups =>
              let time_filter := default "all" (form_get form "time_filter") in
              let stack_team := default "" (form_get form "stack_team") in
              ({| sess_locked_players := Some locked_players;
                  sess_excluded_players := Some excluded_players;
                  sess_num_lineups := Some num_lineups;
                  sess_time_filter := Some time_filter;
                  sess_stack_team := Some stack_team |},
               Ok RedirectLineups)
          end
      | None =>
          let filtered_df := filter_by_game_time df time_filter in
          let filtered_df := exclude_players excluded_players filtered_df in
          let data := to_record <$> filtered_df in
          (session,
           Ok (PlayerPoolPage data teams locked_players excluded_players
                 num_lineups time_filter stack_team))
      end
  end.

(** [lineups_page]: what it prints and what it answers. *)
Definition lineups_page `{Runtime} `{Optimizer} (df_raw : frame)
    (session : Session) : list string * res response :=
  match load_players df_raw with
  | Raise e => ([], Raise e)
  | Ok (df, teams) =>
      let locked_players := default [] (sess_locked_players session) in
      let excluded_players := default [] (sess_excluded_players session) in
      let num_lineups := default 1 (sess_num_lineups session) in
      let time_filter := default "all" (sess_time_filter session) in
      let stack_team := default "" (sess_stack_team session) in
      let filtered_df := filter_by_game_time df time_filter in
      let filtered_df := exclude_players excluded_players filtered_df in
      let '(log, result) :=
        build_lineups filtered_df num_lineups locked_players excluded_players
          stack_team in
      (log, lineups ← result; Ok (LineupsPage lineups num_lineups time_filter))
  end.

(** ** The statements of the specification, in its words, and views of
    the code row by row and phase by phase *)

(** The heuristic as one formula. *)
Definition adjusted_formula (proj dvp l5 szn : float) : float :=
  PyFloat.round2
    (((proj - (if dvp <? 5 then 1.5 else 0))
      + (if (abs (l5 - szn) <=? 5) && (14 <? l5) then 1.5 else 0)) * 0.75)%float.

(** The number a field of the row stands for: 0.0 when the field is
    absent, [None] or text that [float] rejects; a float cell is itself, NaN
    included; an integer or boolean cell is its value. *)
Definition coerced (c : option pyval) : float :=
  match c with
  | None | Some PNone => 0%float
  | Some (PStr s) =>
      match PyStr.to_float s with
      | Ok f => f
      | Raise _ => 0%float
      end
  | Some (PFloat f) => f
  | Some (PBool b) => (if b then 1 else 0)%float
  | Some (PInt z) => PyFloat.of_ratio (z <? 0) (Z.abs z) 1
  end.

(** An integer field beyond the binary64 range is the one input [float]
    answers with an exception that [safe_float] lets through. *)
Definition in_float_range (c : option pyval) : bool :=
  match c with
  | Some (PInt z) => negb (is_infinity (PyFloat.of_ratio (z <? 0) (Z.abs z) 1))
  | _ => true
  end.

Definition heuristic_fields : list string :=
  ["FINAL PROJECTION"; "DVP"; "L5 AVG"; "SZ AVG"].

(** Equal as Python's [==] has it, or NaN both. *)
Definition same_float (x y : float) : Prop :=
  (x =? y)%float = true \/ (is_nan x = true /\ is_nan y = true).

(** The minutes since midnight of a row's game time, when it parses. *)
Definition game_minutes (r : prow) : option Z :=
  parse_hour_minute (get (cells r) "GAME TIME" PNone).

(** Which rows a filter keeps: 12:30 to 13:30 for "1pm", from 16:00 on for
    "late", and under any other name every row whose time parses. *)
Definition time_kept (time_filter : string) (minutes : option Z) : bool :=
  match minutes with
  | None => false
  | Some m =>
      if String.eqb time_filter "1pm" then (750 <=? m) && (m <=? 810)
      else if String.eqb time_filter "late" then 960 <=? m
      else true
  end.

(** A clock time written "H:MM" with an am or pm mark, and the minutes
    since midnight it names. *)
Definition clock_text (h m : Z) (mark : string) : string :=
  PyStr.of_Z h +:+ ":" +:+ (if m <? 10 then "0" else "") +:+ PyStr.of_Z m +:+ mark.

Definition am_marks : list string := ["am"; "AM"; "Am"; "aM"].
Definition pm_marks : list string := ["pm"; "PM"; "Pm"; "pM"].

Definition minutes_since_midnight (h m : Z) (pm : bool) : Z :=
  (h mod 12 + (if pm then 12 else 0)) * 60 + m.

(** The integer of [int(f)], or the 0 that [parse_salary] falls back to. *)
Definition int_or_zero (r : res Z) : Z :=
  match r with
  | Ok z => z
  | Raise _ => 0
  end.

(** The characters [parse_salary] drops wherever they stand. *)
Definition salary_marks : list ascii := ["$"; ","; "k"]%char.

(** The row of the table under the normalized header, before the salary
    is parsed (lines 105-111), and the two numbers the loader filters by. *)
Definition raw_cells (df_raw : frame) (vals : list pyval) : gmap string pyval :=
  (read_row (normalize_columns (columns df_raw)) (0, vals)).2.

Definition raw_salary `{Runtime} (df_raw : frame) (vals : list pyval) : Z :=
  parse_salary (get (raw_cells df_raw vals) "SALARY" PNone).

Definition raw_projection `{Runtime} (df_raw : frame) (vals : list pyval) : float :=
  fillna0 (to_numeric (get (raw_cells df_raw vals) "FINAL PROJECTION" PNone)).

(** Lines 123-130 on one row of the frame: the row as the table holds it,
    [None] for a row that is dropped. *)
Definition load_row `{Runtime} (df_raw : frame) (r : Z * list pyval)
  : res (option (Z * gmap string pyval)) :=
  let b := set_salary (read_row (normalize_columns (columns df_raw)) r) in
  if decide (salary_positive b) then
    c ← set_adjusted (set_projection b);
    Ok (if decide (projection_positive c) then Some (set_pos c) else None)
  else Ok None.

(** The elements of [l] whose key no earlier element of [l] has, in
    their order. *)
Definition firsts_by {A K} `{EqDecision K} (key : A -> K) (l : list A) : list A :=
  omap (M := list) id
    (imap (fun i x => if decide (key x ∈ key <$> take i l) then None else Some x) l).

(** The same past a list of keys already seen. *)
Definition firsts_from {A K} `{EqDecision K} (key : A -> K) (seen : list K)
    (l : list A) : list A :=
  omap (M := list) id
    (imap (fun i x =>
             if decide (key x ∈ seen ++ (key <$> take i l)) then None else Some x) l).

(** A lineup as it is returned: the slot names beside the players. *)
Definition slot_players (lineup : Lineup) : list (string * Player) :=
  zip DK_NFL_SLOTS (players lineup).

(** The ids of a lineup, in slot order. *)
Definition lineup_ids (lineup : Lineup) : list string :=
  player_id <$> players lineup.

(** The players the locked ids name: for each id that some record has,
    the first record with it. *)
Definition matched (players : list Player) (locked_ids : list string)
  : list Player :=
  omap (M := list)
    (fun pid => find (fun pl => String.eqb (player_id pl) pid) players)
    locked_ids.

(** Forcing players into the lineup, one call after the other. *)
Fixpoint force_all `{Optimizer} (ps : list Player) (o : optimizer)
  : res optimizer :=
  match ps with
  | [] => Ok o
  | p :: ps' => o' ← opt_add_player_to_lineup o p; force_all ps' o'
  end.

(** The build from line 179 on, once the pool is loaded and the stack
    step is over. *)
Definition finish `{Optimizer} (players : list Player) (o : optimizer)
    (num_lineups : Z) (locked_ids : list string)
  : list string * res (list (list (string * Player))) :=
  match configure players o locked_ids with
  | Raise e => ([], Raise e)
  | Ok o =>
      let '(cands, fin) := opt_optimize o (num_lineups * 3) in
      let '(log, unique_lineups) := generate num_lineups cands fin [] ∅ in
      (log, Ok unique_lineups)
  end.

(** ** Sample inputs *)

(** A [repr] that is exact on the integral floats the samples hold, and
    a [to_numeric] that reads a cell as [float] does. *)
Definition sample_runtime : Runtime :=
  {| float_repr f :=
       match PyFloat.to_int f with
       | Ok z => PyStr.of_Z z +:+ ".0"
       | Raise _ => "nan"
       end;
     to_numeric v :=
       match py_float v with
       | Ok f => f
       | Raise _ => nan
       end |}.

(** The calls an optimizer has received. *)
Inductive call :=
  | LoadPlayers (ps : list Player)
  | AddStack (s : PositionsStack)
  | SetTotalTeams (lo hi : Z)
  | AddPlayerToLineup (p : Player).

(** An optimizer that records its calls in order, refuses every stack when
    [stack_fails] is set, and yields [cands] and then ends with [fin]. *)
Definition sample_optimizer (stack_fails : bool) (cands : list Lineup)
    (fin : option exn) : Optimizer :=
  {| optimizer := list call;
     get_optimizer := [];
     opt_load_players o ps := Ok (o ++ [LoadPlayers ps]);
     opt_add_stack o s :=
       if stack_fails then (o, Some (LibraryError "unexpected keyword argument"))
       else (o ++ [AddStack s], None);
     opt_set_total_teams o lo hi := Ok (o ++ [SetTotalTeams lo hi]);
     opt_add_player_to_lineup o p := Ok (o ++ [AddPlayerToLineup p]);
     opt_optimize _ _ := (cands, fin) |}.

Definition sample_frame : frame :=
  {| columns := [" Player "; "salary"; "Team"; "Projected Points"; "DVP";
                 "L5 Avg"; "SZ Avg"; "Position"; "Game Time"];
     rows :=
       [(0, [PStr "Josh Allen"; PStr "$8,200"; PStr "buf"; PFloat 24; PInt 3;
             PFloat 25; PFloat 23; PStr "qb"; PStr "1:00pm"]);
        (1, [PStr "Mike Williams"; PStr "5.5k"; PStr "nyj"; PStr "11";
             PInt 12; PFloat 9; PFloat 10; PStr "wr"; PStr "4:25PM"]);
        (2, [PStr "Mike Williams"; PStr "4k"; PStr "pit"; PInt 8;
             PFloat nan; PFloat 7; PFloat 8; PStr " wr "; PStr "8:20pm"]);
        (3, [PStr "Free Agent"; PStr "n/a"; PNone; PInt 9;
             PInt 1; PInt 1; PInt 1; PStr "te"; PStr "1:00pm"]);
        (4, [PStr "Injured"; PInt 3000; PStr "buf"; PStr "out";
             PInt 1; PInt 1; PInt 1; PStr "rb"; PFloat nan])] |}.

(** The row of the specification's example, and the same row with the
    defense-vs-position cell missing, as pandas stores a missing value. *)
Definition example_row : gmap string pyval :=
  list_to_map [("FINAL PROJECTION", PInt 20); ("DVP", PInt 3);
               ("L5 AVG", PInt 16); ("SZ AVG", PInt 15)].

Definition missing_dvp_row : gmap string pyval :=
  <["DVP" := PFloat nan]> example_row.

Definition huge_dvp_row : gmap string pyval :=
  <["DVP" := PInt (10 ^ 400)]> example_row.

(** The table [load_players] makes of the sample frame. *)
Definition sample_table : list prow :=
  match @load_players sample_runtime sample_frame with
  | Ok (table, _) => table
  | Raise _ => []
  end.

Definition sample_player (id : string) : Player :=
  {| player_id := id; first_name := PStr id; last_name := "";
     positions := ["WR"]; team := PStr "BUF"; salary := 5000; fppg := 10 |}.

Definition sample_lineup (ids : list string) : Lineup :=
  {| players := sample_player <$> ids |}.

(** Three candidates, the second a reordering of the first. *)
Definition sample_cands : list Lineup :=
  [sample_lineup ["a"; "b"]; sample_lineup ["b"; "a"]; sample_lineup ["c"; "a"]].

(** A sheet with no projection column. *)
Definition no_projection_frame : frame :=
  {| columns := ["Player"; "Salary"; "Team"; " Position"];
     rows := [(0, [PStr "Josh Allen"; PStr "8200"; PStr "buf"; PStr "qb"])] |}.

(** The fields of a submitted form, and the session such a form leaves. *)
Definition sample_form : gmap string (list string) :=
  list_to_map [("lock_player", ["Josh Allen_0"]);
               ("exclude_player", ["Mike Williams_1"]);
               ("num_lineups", ["2"]);
               ("time_filter", ["late"]);
               ("stack_team", ["BUF"])].

Definition sample_session : Session :=
  {| sess_locked_players := Some ["Josh Allen_0"];
     sess_excluded_players := Some ["Mike Williams_1"];
     sess_num_lineups := Some 2;
     sess_time_filter := Some "all";
     sess_stack_team := Some "BUF" |}.

(** A form whose count of lineups is no integer. *)
Definition bad_form : gmap string (list string) :=
  {["num_lineups" := ["two"]]}.

(** A table with a salary cell that [int] cannot read. *)
Definition broken_table : list prow :=
  [{| row_name := 0; unique_id := "Josh Allen_0";
      cells := list_to_map [("SALARY", PStr "n/a"); ("POS", PStr "QB");
                            ("ADJ PROJECTION", PFloat 20)] |}].

(** * Properties *)

(** ** Binary64 facts *)

Lemma Prim2SF_inj (x y : float) : Prim2SF x = Prim2SF y -> x = y.
Proof.
  intros E. rewrite <- (SF2Prim_Prim2SF x), <- (SF2Prim_Prim2SF y).
  now rewrite E.
Qed.

Lemma float_sub_zero (x : float) : (x - 0)%float = x.
Proof.
  apply Prim2SF_inj. rewrite sub_spec.
  change (Prim2SF 0) with (S754_zero false).
  destruct (Prim2SF x) as [[]|[]| |[] m e]; reflexivity.
Qed.

Lemma float_add_zero (x : float) :
  (x + 0)%float = x \/ (x = neg_zero /\ (x + 0)%float = PrimFloat.zero).
Proof.
  destruct (Prim2SF x) as [[]|[]| |[] m e] eqn:E;
    try (left; apply Prim2SF_inj; rewrite add_spec, E; reflexivity).
  right.
  assert (x = neg_zero) as -> by (apply Prim2SF_inj; rewrite E; reflexivity).
  split; reflexivity.
Qed.

Lemma same_float_refl (x : float) : same_float x x.
Proof.
  unfold same_float, is_nan. destruct (x =? x)%float; [left | right]; auto.
Qed.

(** ** Numbers in a text *)

(** [int] and [float] skip blanks, tabs and line ends around the number
    but reject the separators 0x1c..0x1f, which [str.strip] removes; [int]
    reads 4300 digits and no more. *)
Lemma number_text_whitespace :
  PyStr.to_float (String "028" "5") = Raise ValueError /\
  PyStr.to_int (String "1" (String "031" "")) = Raise ValueError /\
  PyStr.to_int (String "009" " 12 ") = Ok 12 /\
  PyStr.to_float (String "010" " 1_2.5e1 ") = Ok 125%float /\
  PyStr.strip (String "031" " a ") = "a" /\
  PyStr.to_int (PyStr.text (repeat "0"%char 4300)) = Ok 0 /\
  PyStr.to_int (PyStr.text (repeat "0"%char 4301)) = Raise ValueError.
Proof.
  do 6 (split; [vm_compute; reflexivity|]). vm_compute. reflexivity.
Qed.

(** The same in the three readers of a cell: a separator inside the text
    makes the game time unreadable, the salary 0 and the field 0.0, while
    one at either end of a game time is stripped first. *)
Lemma cell_text_separators :
  parse_hour_minute (PStr (String "1" (String "031" ":05pm"))) = None /\
  parse_hour_minute (PStr (String "031" "1:05pm")) = Some 785 /\
  @parse_salary sample_runtime (PStr (String "031" "5000")) = 0 /\
  @parse_salary sample_runtime (PStr (String "031" "50")) = 0 /\
  @parse_salary sample_runtime (PStr " 5000 ") = 5000 /\
  safe_float (PStr (String "031" "16")) 0 = Ok 0%float.
Proof.
  repeat split; vm_compute; reflexivity.
Qed.

(** ** The projection heuristic *)

Lemma to_float_raises (s : string) (e : exn) :
  PyStr.to_float s = Raise e -> e = ValueError.
Proof.
  unfold PyStr.to_float. intros E.
  repeat case_match; congruence.
Qed.

Lemma safe_float_coerced (c : option pyval) :
  in_float_range c = true ->
  safe_float (default (PInt 0) c) 0 = Ok (coerced c).
Proof.
  destruct c as [[|[]|z|f|s]|]; simpl; intros R; try reflexivity.
  - unfold safe_float; simpl. unfold PyFloat.of_int.
    apply negb_true_iff in R. now rewrite R.
  - unfold safe_float; simpl.
    destruct (PyStr.to_float s) as [f|e] eqn:E; [reflexivity|].
    now rewrite (to_float_raises _ _ E).
Qed.

Lemma safe_float_raise (v : pyval) (d : float) (e : exn) :
  safe_float v d = Raise e ->
  e = OverflowError /\ in_float_range (Some v) = false.
Proof.
  unfold safe_float. destruct v as [|b|z|f|s]; simpl; try discriminate.
  - unfold PyFloat.of_int.
    destruct (is_infinity _); [|discriminate]. intros [= <-]. auto.
  - destruct (PyStr.to_float s) as [f|e'] eqn:E; [discriminate|].
    rewrite (to_float_raises _ _ E). discriminate.
Qed.

(** The two conditional updates of [adj] against the one formula: they
    differ only where [proj] is the negative zero, and there in the sign of
    a zero result. *)
Lemma heuristic_steps (proj dvp l5 szn : float) :
  same_float
    (PyFloat.round2
       ((if (abs (l5 - szn) <=? 5)%float && (14 <? l5)%float
         then ((if (dvp <? 5)%float then (proj - 1.5)%float else proj) + 1.5)%float
         else (if (dvp <? 5)%float then (proj - 1.5)%float else proj)) * 0.75)%float)
    (adjusted_formula proj dvp l5 szn).
Proof.
  unfold adjusted_formula.
  destruct (dvp <? 5)%float, ((abs (l5 - szn) <=? 5)%float && (14 <? l5)%float);
    rewrite ?float_sub_zero; try apply same_float_refl.
  - destruct (float_add_zero (proj - 1.5)%float) as [-> | [E ->]];
      [apply same_float_refl|].
    rewrite E. left. reflexivity.
  - destruct (float_add_zero proj) as [-> | [E ->]]; [apply same_float_refl|].
    rewrite E. left. reflexivity.
Qed.

Lemma compute_adjusted_proj_coerced (row : gmap string pyval) :
  (forall k, k ∈ heuristic_fields -> in_float_range (row !! k) = true) ->
  exists r,
    compute_adjusted_proj row = Ok r /\
    same_float r
      (adjusted_formula (coerced (row !! "FINAL PROJECTION"))
         (coerced (row !! "DVP")) (coerced (row !! "L5 AVG"))
         (coerced (row !! "SZ AVG"))).
Proof.
  intros R. unfold compute_adjusted_proj, get.
  rewrite !safe_float_coerced
    by (apply R; unfold heuristic_fields;
        repeat first [apply list_elem_of_here | apply list_elem_of_further]).
  eexists; split; [reflexivity|]. apply heuristic_steps.
Qed.

(** One field of the heuristic raising: the exception and the field. *)
Ltac field_raises K E :=
  intros [= ->]; destruct (K _ _ E) as [-> F]; split; [reflexivity|];
  eexists; split; [|exact F]; unfold heuristic_fields;
  repeat first [apply list_elem_of_here | apply list_elem_of_further].

Lemma compute_adjusted_proj_raise (row : gmap string pyval) (e : exn) :
  compute_adjusted_proj row = Raise e ->
  e = OverflowError /\
  exists k, k ∈ heuristic_fields /\ in_float_range (row !! k) = false.
Proof.
  unfold compute_adjusted_proj, get.
  assert (forall k e', safe_float (default (PInt 0) (row !! k)) 0 = Raise e' ->
                       e' = OverflowError /\ in_float_range (row !! k) = false) as K.
  { intros k e' E. destruct (safe_float_raise _ _ _ E) as [-> F]. split; [done|].
    destruct (row !! k); [exact F|]. simpl in E. discriminate. }
  destruct (safe_float (default _ (row !! "FINAL PROJECTION")) 0) eqn:E1;
    cbn [mbind res_bind]; [|field_raises K E1].
  destruct (safe_float (default _ (row !! "DVP")) 0) eqn:E2;
    cbn [mbind res_bind]; [|field_raises K E2].
  destruct (safe_float (default _ (row !! "L5 AVG")) 0) eqn:E3;
    cbn [mbind res_bind]; [|field_raises K E3].
  destruct (safe_float (default _ (row !! "SZ AVG")) 0) eqn:E4;
    cbn [mbind res_bind]; [|field_raises K E4].
  discriminate.
Qed.

(** What [compute_adjusted_proj] does as the code stands.  It reads each of
    FINAL PROJECTION, DVP, L5 AVG and SZ AVG as 0.0 when the field is
    absent, [None] or text that [float] rejects, and as the number itself
    otherwise; a NaN cell is passed on as NaN.  Whenever no field is an
    integer beyond the float range it returns, and what it returns is equal
    ([==], or NaN both) to round(((proj - (1.5 if dvp < 5 else 0)) + (1.5
    if |l5 - szn| <= 5 and l5 > 14 else 0)) * 0.75, 2) on the values read;
    the only exception it can raise is [OverflowError], on such an integer;
    and final_projection=20, dvp=3, l5=16, season=15 yields 15.0. *)
Theorem compute_adjusted_proj_spec :
  (forall row : gmap string pyval,
     (forall k, k ∈ heuristic_fields -> in_float_range (row !! k) = true) ->
     exists r,
       compute_adjusted_proj row = Ok r /\
       same_float r
         (adjusted_formula (coerced (row !! "FINAL PROJECTION"))
            (coerced (row !! "DVP")) (coerced (row !! "L5 AVG"))
            (coerced (row !! "SZ AVG")))) /\
  (forall (row : gmap string pyval) e,
     compute_adjusted_proj row = Raise e ->
     e = OverflowError /\
     exists k, k ∈ heuristic_fields /\ in_float_range (row !! k) = false) /\
  compute_adjusted_proj example_row = Ok 15%float.
Proof.
  split; [exact compute_adjusted_proj_coerced|].
  split; [exact compute_adjusted_proj_raise|].
  vm_compute. reflexivity.
Qed.

(** At the example row: it returns, and the result equals the formula at
    20, 3, 16 and 15. *)
Lemma compute_adjusted_proj_spec_witness :
  exists r,
    compute_adjusted_proj example_row = Ok r /\
    same_float r (adjusted_formula 20 3 16 15).
Proof.
  destruct (proj1 compute_adjusted_proj_spec example_row) as (r & E & S).
  - intros k Hk. unfold heuristic_fields in Hk.
    repeat (apply elem_of_cons in Hk as [-> | Hk]; [vm_compute; reflexivity|]).
    inversion Hk.
  - exists r. split; [exact E|]. exact S.
Defined.

(** C1 fails on the code, by two missed cases of [safe_float].  A missing
    value is a NaN in the row: [float] accepts it, so [safe_float] passes
    NaN on where it gives 0.0 for every other value that is no number (and
    where line 126 fills the projection with 0), NaN < 5 is false, and the
    row keeps the 1.5 the formula at dvp = 0.0 takes away (16.12 against
    15.0).  And an integer beyond the float range makes [float] raise
    [OverflowError], which [safe_float] does not catch: the function
    raises. *)
Lemma compute_adjusted_proj_nan_counterexample :
  isna (get missing_dvp_row "DVP" (PInt 0)) = true /\
  safe_float (get missing_dvp_row "DVP" (PInt 0)) 0 = Ok nan /\
  compute_adjusted_proj missing_dvp_row = Ok (PyFloat.of_ratio false 1612 100) /\
  adjusted_formula 20 0 16 15 = 15%float /\
  compute_adjusted_proj huge_dvp_row = Raise OverflowError.
Proof.
  repeat split; vm_compute; reflexivity.
Qed.

(** ** The game-time filter *)

Lemma filter_fmap_comm {A B} (f : A -> B) (P : B -> Prop)
    `{!forall b, Decision (P b)} (l : list A) :
  filter P (f <$> l) = f <$> filter (fun a => P (f a)) l.
Proof.
  induction l as [|a l IH]; [reflexivity|].
  rewrite fmap_cons, !filter_cons, IH.
  destruct (decide (P (f a))); reflexivity.
Qed.

Lemma game_min_of_row (r : prow) :
  get (cells (with_game_min r)) "GAME_MIN" PNone = game_min_cell r.
Proof.
  unfold with_game_min, set_cell, get; simpl. now rewrite lookup_insert_eq.
Qed.

Lemma filter_by_game_time_kept (df : list prow) (time_filter : string) :
  filter_by_game_time df time_filter
  = with_game_min <$> filter (fun r => time_kept time_filter (game_minutes r)) df.
Proof.
  unfold filter_by_game_time.
  assert (forall (P Q : prow -> bool),
             (forall r, P (with_game_min r) = Q r) ->
             filter (fun r => P r) (with_game_min <$> df)
             = with_game_min <$> filter (fun r => Q r) df) as K.
  { intros P Q E. rewrite filter_fmap_comm. f_equal.
    apply list_filter_iff. intros r. now rewrite E. }
  destruct (String.eqb time_filter "all") eqn:Eall;
    [|destruct (String.eqb time_filter "1pm") eqn:E1;
      [|destruct (String.eqb time_filter "late") eqn:El]];
    apply K; intros r; rewrite game_min_of_row;
    unfold game_min_cell, game_minutes, time_kept;
    try (apply String.eqb_eq in Eall; subst time_filter);
    rewrite ?E1, ?El; destruct (parse_hour_minute _); reflexivity.
Qed.

Lemma clock_text_parses :
  Forall (fun h =>
    Forall (fun m =>
      Forall (fun mark =>
        parse_hour_minute (PStr (clock_text h m mark))
        = Some (minutes_since_midnight h m false)) am_marks /\
      Forall (fun mark =>
        parse_hour_minute (PStr (clock_text h m mark))
        = Some (minutes_since_midnight h m true)) pm_marks)
      (seqZ 0 60))
    (seqZ 1 12).
Proof.
  refine (bool_decide_unpack _ _). vm_compute. exact I.
Qed.

Lemma filter_by_game_time_elem (df : list prow) (time_filter : string) (r' : prow) :
  r' ∈ filter_by_game_time df time_filter <->
  exists r, r ∈ df /\ r' = with_game_min r
            /\ time_kept time_filter (game_minutes r) = true.
Proof.
  rewrite filter_by_game_time_kept, list_elem_of_fmap.
  split.
  - intros (r & -> & Hr). apply list_elem_of_filter in Hr as [K Hr].
    exists r. repeat split; [done|]. now apply Is_true_true.
  - intros (r & Hr & -> & K). exists r. split; [done|].
    apply list_elem_of_filter. split; [|done]. now apply Is_true_true.
Qed.

(** C3.  [filter_by_game_time] reads every row's game time as minutes
    since midnight ([parse_hour_minute]: for "H:MM" followed by am or pm in
    any case, (H mod 12 + 12 if pm) * 60 + MM) and, for every table, returns
    in their order, each with its GAME_MIN cell, exactly the rows whose
    minutes lie in 750..810 under "1pm", are at least 960 under "late", and
    exist under "all" or any other filter name.  "1:05pm" is 785 and kept
    under "1pm", "4:00pm" is 960 and kept under "late", "11:59am" is 719 and
    kept under neither. *)
Theorem filter_by_game_time_spec :
  (forall df time_filter,
     filter_by_game_time df time_filter
     = with_game_min <$>
         filter (fun r => time_kept time_filter (game_minutes r)) df) /\
  (forall df r',
     r' ∈ filter_by_game_time df "1pm" <->
     exists r m, r ∈ df /\ r' = with_game_min r
                 /\ game_minutes r = Some m /\ 750 <= m <= 810) /\
  (forall df r',
     r' ∈ filter_by_game_time df "late" <->
     exists r m, r ∈ df /\ r' = with_game_min r
                 /\ game_minutes r = Some m /\ 960 <= m) /\
  (forall df time_filter r',
     time_filter <> "1pm" -> time_filter <> "late" ->
     r' ∈ filter_by_game_time df time_filter <->
     exists r m, r ∈ df /\ r' = with_game_min r /\ game_minutes r = Some m) /\
  (forall h m mark,
     1 <= h <= 12 -> 0 <= m <= 59 ->
     (mark ∈ am_marks ->
      parse_hour_minute (PStr (clock_text h m mark))
      = Some (minutes_since_midnight h m false)) /\
     (mark ∈ pm_marks ->
      parse_hour_minute (PStr (clock_text h m mark))
      = Some (minutes_since_midnight h m true))) /\
  (parse_hour_minute (PStr "1:05pm") = Some 785
   /\ time_kept "1pm" (Some 785) = true) /\
  (parse_hour_minute (PStr "4:00pm") = Some 960
   /\ time_kept "late" (Some 960) = true) /\
  (parse_hour_minute (PStr "11:59am") = Some 719
   /\ time_kept "1pm" (Some 719) = false
   /\ time_kept "late" (Some 719) = false).
Proof.
  split; [exact filter_by_game_time_kept|].
  split; [|split; [|split; [|split]]].
  - intros df r'. rewrite filter_by_game_time_elem. split.
    + intros (r & Hr & -> & K). destruct (game_minutes r) as [m|] eqn:E; [|done].
      exists r, m. simpl in K. apply andb_true_iff in K as [K1 K2].
      repeat split; try done; lia.
    + intros (r & m & Hr & -> & E & K). exists r. rewrite E. simpl.
      repeat split; try done. apply andb_true_iff. split; lia.
  - intros df r'. rewrite filter_by_game_time_elem. split.
    + intros (r & Hr & -> & K). destruct (game_minutes r) as [m|] eqn:E; [|done].
      exists r, m. simpl in K. repeat split; try done; lia.
    + intros (r & m & Hr & -> & E & K). exists r. rewrite E. simpl.
      repeat split; try done. lia.
  - intros df tf r' N1 N2. rewrite filter_by_game_time_elem.
    apply String.eqb_neq in N1, N2. split.
    + intros (r & Hr & -> & K). destruct (game_minutes r) as [m|] eqn:E; [|done].
      now exists r, m.
    + intros (r & m & Hr & -> & E). exists r. rewrite E. simpl.
      now rewrite N1, N2.
  - intros h m mark Hh Hm.
    pose proof clock_text_parses as C.
    rewrite Forall_forall in C. specialize (C h).
    rewrite Forall_forall in C. specialize (C ltac:(apply elem_of_seqZ; lia) m).
    destruct (C ltac:(apply elem_of_seqZ; lia)) as [A P].
    rewrite Forall_forall in A, P. split; [apply A | apply P].
  - repeat split; vm_compute; reflexivity.
Qed.

(** ** The salary parser *)

Lemma chars_text (l : list ascii) : PyStr.chars (PyStr.text l) = l.
Proof. apply list_ascii_of_string_of_list_ascii. Qed.

Lemma text_chars (s : string) : PyStr.text (PyStr.chars s) = s.
Proof. apply string_of_list_ascii_of_string. Qed.

Lemma chars_app (s t : string) :
  PyStr.chars (s +:+ t) = PyStr.chars s ++ PyStr.chars t.
Proof.
  induction s as [|a s IH]; [reflexivity|]. simpl. now rewrite <- IH.
Qed.

Lemma replace_removes (c : ascii) (s : string) :
  PyStr.chars (PyStr.replace c "" s) = filter (fun a => a <> c) (PyStr.chars s).
Proof.
  unfold PyStr.replace. rewrite chars_text.
  induction (PyStr.chars s) as [|a l IH]; [reflexivity|].
  cbn [flat_map]. rewrite filter_cons, IH.
  destruct (Ascii.eqb_spec a c) as [->|N]; simpl.
  - now destruct (decide (c <> c)).
  - now destruct (decide (a <> c)).
Qed.

Lemma salary_text_chars `{Runtime} (x : pyval) :
  PyStr.chars (salary_text x)
  = filter (fun a => a ∉ salary_marks) (PyStr.chars (py_str x)).
Proof.
  unfold salary_text. rewrite !replace_removes, !list_filter_filter.
  apply list_filter_iff. intros a. unfold salary_marks.
  rewrite !not_elem_of_cons. pose proof (not_elem_of_nil a). tauto.
Qed.

Lemma salary_text_marks `{Runtime} (s t : string) :
  filter (fun a => a ∉ salary_marks) (PyStr.chars s)
  = filter (fun a => a ∉ salary_marks) (PyStr.chars t) ->
  salary_text (PStr s) = salary_text (PStr t).
Proof.
  intros E. rewrite <- (text_chars (salary_text (PStr s))),
    <- (text_chars (salary_text (PStr t))), !salary_text_chars. simpl.
  now rewrite E.
Qed.

Lemma parse_salary_number `{Runtime} (x : pyval) (f : float) :
  PyStr.to_float (salary_text x) = Ok f ->
  parse_salary x
  = if (f <? 100)%float then int_or_zero (PyFloat.to_int (f * 1000)%float)
    else int_or_zero (PyFloat.to_int f).
Proof.
  intros E. unfold parse_salary. rewrite E. simpl.
  destruct (f <? 100)%float; reflexivity.
Qed.

Lemma parse_salary_unparseable `{Runtime} (x : pyval) (e : exn) :
  PyStr.to_float (salary_text x) = Raise e -> parse_salary x = 0.
Proof.
  intros E. unfold parse_salary. now rewrite E.
Qed.

(** C10.  Whatever the cell, once "$", "," and "k" are dropped and the
    rest reads as the number [f], [parse_salary] yields [int(f * 1000)] when
    [f < 100] and [int(f)] otherwise (0 where [int] has no answer); a "k"
    appended to a text changes nothing.  So "50" yields 50000 and "99.5"
    yields 99500, while "100" yields 100: the scaling follows the
    magnitude, not the suffix. *)
Theorem parse_salary_scales_by_magnitude `{Runtime} :
  (forall x f,
     PyStr.to_float (salary_text x) = Ok f ->
     (f <? 100)%float = true ->
     parse_salary x = int_or_zero (PyFloat.to_int (f * 1000)%float)) /\
  (forall x f,
     PyStr.to_float (salary_text x) = Ok f ->
     (f <? 100)%float = false ->
     parse_salary x = int_or_zero (PyFloat.to_int f)) /\
  (forall s, parse_salary (PStr (s +:+ "k")) = parse_salary (PStr s)) /\
  parse_salary (PStr "50") = 50000 /\
  parse_salary (PStr "99.5") = 99500 /\
  parse_salary (PStr "100") = 100.
Proof.
  split; [|split; [|split]].
  - intros x f E L. now rewrite (parse_salary_number _ _ E), L.
  - intros x f E L. now rewrite (parse_salary_number _ _ E), L.
  - intros s. unfold parse_salary.
    rewrite (salary_text_marks (s +:+ "k") s); [reflexivity|].
    rewrite chars_app, filter_app. simpl.
    rewrite filter_cons_False, filter_nil, app_nil_r; [reflexivity|].
    unfold salary_marks. set_solver.
  - repeat split; vm_compute; reflexivity.
Qed.

(** ** The loader *)

Lemma display_column_present (cols : list string) (c : string) :
  c ∈ DISPLAY_COLUMNS ->
  c ∈ cols ++ filter (fun c => c ∉ cols) DISPLAY_COLUMNS.
Proof.
  intros Hc. apply elem_of_app.
  destruct (decide (c ∈ cols)); [left; done|right].
  now apply list_elem_of_filter.
Qed.

Lemma map_res_fmap {A B C} (f : A -> B) (g : B -> res C) (l : list A) :
  map_res g (f <$> l) = map_res (fun a => g (f a)) l.
Proof.
  induction l as [|a l IH]; [reflexivity|].
  rewrite fmap_cons. cbn [map_res]. now rewrite IH.
Qed.

(** A filter, a raising map and a second filter, row by row. *)
Lemma filter_map_res_rowwise {A B C} (P : A -> Prop) `{!forall a, Decision (P a)}
    (g : A -> res B) (Q : B -> Prop) `{!forall b, Decision (Q b)}
    (h : B -> C) (l : list A) :
  mbind (M := res) (fun df : list B => Ok (h <$> filter Q df))
    (map_res g (filter P l))
  = mbind (M := res) (fun rows : list (option C) => Ok (omap (M := list) id rows))
      (map_res (fun a =>
         if decide (P a)
         then mbind (M := res)
                (fun c => Ok (if decide (Q c) then Some (h c) else None)) (g a)
         else Ok None) l).
Proof.
  induction l as [|a l IH]; [reflexivity|].
  rewrite filter_cons. cbn [map_res].
  destruct (decide (P a)) as [p|n].
  - cbn [map_res]. destruct (g a) as [c|e]; [|reflexivity].
    unfold mbind, res_bind in IH |- *.
    destruct (map_res g (filter P l)) as [df|e];
      destruct (map_res _ l) as [rs|e']; try discriminate; [|exact IH].
    injection IH as IH. rewrite filter_cons.
    destruct (decide (Q c)); cbn [omap list_omap id]; rewrite <- IH; reflexivity.
  - unfold mbind, res_bind in IH |- *.
    destruct (map_res g (filter P l)) as [df|e];
      destruct (map_res _ l) as [rs|e']; try discriminate; [|exact IH].
    injection IH as IH. cbn [omap list_omap id]. now rewrite <- IH.
Qed.

Lemma load_players_rowwise `{Runtime} (df_raw : frame) :
  load_players df_raw
  = if bool_decide ("FINAL PROJECTION" ∈
         normalize_columns (columns df_raw)
         ++ filter (fun c => c ∉ normalize_columns (columns df_raw)) DISPLAY_COLUMNS)
    then
      rs ← map_res (load_row df_raw) (rows df_raw);
      Ok (table_row <$> omap id rs, team_list (omap id rs))
    else Raise AttributeError.
Proof.
  unfold load_players. cbv zeta.
  rewrite (bool_decide_eq_true_2 ("SALARY" ∈ _))
    by (apply display_column_present; unfold DISPLAY_COLUMNS;
        do 1 apply list_elem_of_further; apply list_elem_of_here).
  destruct (bool_decide ("FINAL PROJECTION" ∈ _)); [|reflexivity].
  rewrite <- !list_fmap_compose.
  set (cols := normalize_columns (columns df_raw)).
  rewrite filter_fmap_comm, map_res_fmap, map_res_fmap.
  pose proof (filter_map_res_rowwise
                (fun a => salary_positive (set_salary (read_row cols a)))
                (fun a => set_adjusted (set_projection (set_salary (read_row cols a))))
                projection_positive set_pos (rows df_raw)) as K.
  unfold load_row. fold cols.
  unfold mbind, res_bind in K |- *. unfold compose.
  destruct (map_res _ (filter _ (rows df_raw))) as [df|e];
    destruct (map_res _ (rows df_raw)) as [rs|e']; try discriminate.
  - injection K as K. now rewrite K.
  - now injection K as ->.
Qed.

(** The rows the loader keeps. *)
Lemma load_row_unfold `{Runtime} (df_raw : frame) (r : Z * list pyval) :
  load_row df_raw r
  = let c0 := raw_cells df_raw r.2 in
    let c1 := <["SALARY" := PInt (raw_salary df_raw r.2)]> c0 in
    let c2 := <["FINAL PROJECTION" := PFloat (raw_projection df_raw r.2)]> c1 in
    if decide (0 < raw_salary df_raw r.2) then
      mbind (M := res)
        (fun adj =>
           let c3 := <["ADJ PROJECTION" := PFloat adj]> c2 in
           Ok (if decide ((0 <? raw_projection df_raw r.2)%float = true)
               then Some (set_pos (r.1, c3)) else None))
        (compute_adjusted_proj c2)
    else Ok None.
Proof.
  unfold load_row, raw_salary, raw_projection, raw_cells.
  unfold salary_positive, projection_positive, set_adjusted, set_projection,
    set_salary, read_row. cbn [fst snd]. cbv zeta.
  generalize (add_missing_columns (normalize_columns (columns df_raw))
                (row_of_cells (normalize_columns (columns df_raw)) r.2)).
  intros c0. generalize (parse_salary (get c0 "SALARY" PNone)). intros z.
  assert (get (<["SALARY" := PInt z]> c0) "FINAL PROJECTION" PNone
          = get c0 "FINAL PROJECTION" PNone) as ->
    by (unfold get; now rewrite lookup_insert_ne).
  generalize (fillna0 (to_numeric (get c0 "FINAL PROJECTION" PNone))). intros f.
  assert (get (<["SALARY" := PInt z]> c0) "SALARY" PNone = PInt z) as ->
    by (unfold get; now rewrite lookup_insert_eq).
  cbn [cell_gt0].
  destruct (decide (Is_true (0 <? z))) as [S|S].
  - rewrite decide_True by (apply Is_true_true in S; lia).
    destruct (compute_adjusted_proj _) as [adj|]; [|reflexivity].
    cbn [mbind res_bind fst snd].
    assert (get (<["ADJ PROJECTION" := PFloat adj]>
                   (<["FINAL PROJECTION" := PFloat f]> (<["SALARY" := PInt z]> c0)))
                "FINAL PROJECTION" PNone = PFloat f) as ->
      by (unfold get; now rewrite lookup_insert_ne, lookup_insert_eq).
    cbn [cell_gt0].
    destruct (decide (Is_true _)) as [F|F].
    + rewrite decide_True by (now apply Is_true_true). reflexivity.
    + rewrite decide_False; [reflexivity|]. intros K. apply F. now apply Is_true_true.
  - rewrite decide_False; [reflexivity|]. intros K. apply S, Is_true_true. lia.
Qed.

Lemma load_row_some `{Runtime} (df_raw : frame) (r : Z * list pyval)
    (b : Z * gmap string pyval) :
  load_row df_raw r = Ok (Some b) ->
  b.1 = r.1 /\
  0 < raw_salary df_raw r.2 /\
  (0 <? raw_projection df_raw r.2)%float = true /\
  b.2 !! "SALARY" = Some (PInt (raw_salary df_raw r.2)) /\
  b.2 !! "FINAL PROJECTION" = Some (PFloat (raw_projection df_raw r.2)) /\
  get b.2 "NAME" (PStr "") = get (raw_cells df_raw r.2) "NAME" (PStr "").
Proof.
  rewrite load_row_unfold. cbv zeta.
  destruct (decide (0 < _)) as [S|]; [|discriminate].
  destruct (compute_adjusted_proj _) as [adj|]; [|discriminate].
  cbn [mbind res_bind].
  destruct (decide (_ = true)) as [F|]; [|discriminate].
  intros [= <-]. unfold set_pos, get. cbn [fst snd].
  do 3 (split; [done|]).
  generalize (raw_cells df_raw r.2) (raw_salary df_raw r.2)
    (raw_projection df_raw r.2). intros c0 z f.
  generalize (PStr (PyStr.upper (PyStr.strip (py_str
    (default PNone (<["ADJ PROJECTION" := PFloat adj]>
       (<["FINAL PROJECTION" := PFloat f]> (<["SALARY" := PInt z]> c0)) !! "POS")))))).
  intros p.
  rewrite (lookup_insert_ne _ "POS" "SALARY"),
    (lookup_insert_ne _ "ADJ PROJECTION" "SALARY"),
    (lookup_insert_ne _ "FINAL PROJECTION" "SALARY"), lookup_insert_eq by done.
  rewrite (lookup_insert_ne _ "POS" "FINAL PROJECTION"),
    (lookup_insert_ne _ "ADJ PROJECTION" "FINAL PROJECTION"),
    lookup_insert_eq by done.
  rewrite !lookup_insert_ne by done. done.
Qed.

Lemma load_row_none `{Runtime} (df_raw : frame) (r : Z * list pyval) :
  load_row df_raw r = Ok None ->
  ~ (0 < raw_salary df_raw r.2 /\
     (0 <? raw_projection df_raw r.2)%float = true).
Proof.
  rewrite load_row_unfold. cbv zeta.
  destruct (decide (0 < _)) as [S|S]; [|tauto].
  destruct (compute_adjusted_proj _) as [adj|]; [|discriminate].
  cbn [mbind res_bind].
  destruct (decide (_ = true)) as [F|F]; [discriminate|tauto].
Qed.

Lemma load_rows_kept `{Runtime} (df_raw : frame) (l : list (Z * list pyval))
    (rs : list (option (Z * gmap string pyval))) :
  map_res (load_row df_raw) l = Ok rs ->
  fst <$> omap (M := list) id rs
  = fst <$> filter (fun r => 0 < raw_salary df_raw r.2 /\
                             (0 <? raw_projection df_raw r.2)%float = true) l
  /\ forall b, b ∈ omap (M := list) id rs ->
               exists r, r ∈ l /\ load_row df_raw r = Ok (Some b).
Proof.
  revert rs. induction l as [|r l IH]; intros rs.
  - intros [= <-]. split; [reflexivity|]. intros b Hb. inversion Hb.
  - cbn [map_res]. destruct (load_row df_raw r) as [o|] eqn:E; [|discriminate].
    unfold mbind, res_bind.
    destruct (map_res (load_row df_raw) l) as [rs'|]; [|discriminate].
    intros [= <-]. destruct (IH rs' eq_refl) as [IH1 IH2].
    rewrite filter_cons. destruct o as [b|]; cbn [omap list_omap id].
    + destruct (load_row_some _ _ _ E) as (N & S & F & _).
      rewrite decide_True by done. rewrite !fmap_cons, IH1, N. split; [done|].
      intros b' [->|Hb]%elem_of_cons.
      * exists r. split; [left|done].
      * destruct (IH2 _ Hb) as (r' & Hr & E'). exists r'. split; [now right|done].
    + rewrite decide_False by (now apply load_row_none). split; [done|].
      intros b' Hb. destruct (IH2 _ Hb) as (r' & Hr & E').
      exists r'. split; [now right|done].
Qed.

Lemma load_players_inv `{Runtime} (df_raw : frame) (table : list prow)
    (all_teams : list string) :
  load_players df_raw = Ok (table, all_teams) ->
  exists rs, map_res (load_row df_raw) (rows df_raw) = Ok rs /\
             table = table_row <$> omap (M := list) id rs.
Proof.
  rewrite load_players_rowwise.
  destruct (bool_decide _); [|discriminate].
  destruct (map_res _ _) as [rs|]; [|discriminate].
  intros [= <- _]. now exists rs.
Qed.

Lemma load_players_row_names `{Runtime} (df_raw : frame) (table : list prow)
    (all_teams : list string) :
  load_players df_raw = Ok (table, all_teams) ->
  row_name <$> table
  = fst <$> filter (fun r => 0 < raw_salary df_raw r.2 /\
                             (0 <? raw_projection df_raw r.2)%float = true)
                   (rows df_raw).
Proof.
  intros L. destruct (load_players_inv _ _ _ L) as (rs & M & ->).
  destruct (load_rows_kept _ _ _ M) as [K1 _].
  rewrite <- K1, <- list_fmap_compose. reflexivity.
Qed.

(** C6.  When [load_players] returns, every row of its table holds an
    integer salary above 0 and a final projection above 0, and the rows of
    the table are, in order, exactly the rows of the source that meet both
    conditions: the others were dropped. *)
Theorem load_players_positive `{Runtime} (df_raw : frame) (table : list prow)
    (all_teams : list string) :
  load_players df_raw = Ok (table, all_teams) ->
  (forall r, r ∈ table ->
     exists z f,
       cells r !! "SALARY" = Some (PInt z) /\ 0 < z /\
       cells r !! "FINAL PROJECTION" = Some (PFloat f) /\ (0 <? f)%float = true) /\
  row_name <$> table
  = fst <$> filter (fun r => 0 < raw_salary df_raw r.2 /\
                             (0 <? raw_projection df_raw r.2)%float = true)
                   (rows df_raw).
Proof.
  intros L. split; [|now apply load_players_row_names with all_teams].
  destruct (load_players_inv _ _ _ L) as (rs & M & ->).
  destruct (load_rows_kept _ _ _ M) as [_ K2].
  intros r (b & -> & Hb)%list_elem_of_fmap.
  destruct (K2 _ Hb) as (r0 & _ & E).
  destruct (load_row_some _ _ _ E) as (_ & S & F & ES & EF & _).
  exists (raw_salary df_raw r0.2), (raw_projection df_raw r0.2).
  cbn [table_row cells]. done.
Qed.

(** *** Unique ids *)

Lemma uint_text_digits (d : Decimal.uint) :
  "_"%char ∉ PyStr.chars (NilEmpty.string_of_uint d).
Proof.
  induction d; simpl; [apply not_elem_of_nil|..];
    (apply not_elem_of_cons; split; [discriminate|assumption]).
Qed.

Lemma of_Z_no_underscore (z : Z) : "_"%char ∉ PyStr.chars (PyStr.of_Z z).
Proof.
  unfold PyStr.of_Z, NilZero.string_of_int, NilZero.string_of_uint.
  pose proof uint_text_digits as D.
  destruct (Z.to_int z) as [d|d]; destruct d; simpl;
    repeat (apply not_elem_of_cons; split; [discriminate|]);
    try apply not_elem_of_nil; apply D.
Qed.

Lemma of_Z_inj (i j : Z) : PyStr.of_Z i = PyStr.of_Z j -> i = j.
Proof.
  unfold PyStr.of_Z. intros E. apply DecimalZ.to_int_inj.
  assert (forall z, NilZero.int_of_string (NilZero.string_of_int (Z.to_int z))
                    = Some (Z.to_int z)) as K.
  { intros z. apply NilZero.isi; destruct z; simpl; try discriminate;
      intros [= N]; now apply DecimalPos.Unsigned.to_uint_nonnil in N. }
  pose proof (K i) as Ki. rewrite E, K in Ki. now injection Ki.
Qed.

Lemma split_at_last {A} (x : A) (l1 l2 r1 r2 : list A) :
  l1 ++ x :: r1 = l2 ++ x :: r2 -> x ∉ r1 -> x ∉ r2 -> r1 = r2.
Proof.
  revert l2. induction l1 as [|a l1 IH]; intros [|b l2]; simpl; intros E N1 N2.
  - now injection E.
  - injection E as <- ->. exfalso. apply N1. apply elem_of_app. right. left.
  - injection E as -> <-. exfalso. apply N2. apply elem_of_app. right. left.
  - injection E as _ E. now apply (IH l2).
Qed.

Lemma unique_id_inj (n1 n2 : string) (i j : Z) :
  n1 +:+ "_" +:+ PyStr.of_Z i = n2 +:+ "_" +:+ PyStr.of_Z j -> i = j.
Proof.
  intros E. apply (f_equal PyStr.chars) in E. rewrite !chars_app in E.
  apply of_Z_inj. rewrite <- (text_chars (PyStr.of_Z i)), <- (text_chars (PyStr.of_Z j)).
  f_equal. apply (split_at_last _ _ _ _ _ E); apply of_Z_no_underscore.
Qed.

Lemma NoDup_fmap_through {A B C} (f : A -> B) (g : A -> C) (l : list A) :
  (forall x y, f x = f y -> g x = g y) ->
  NoDup (g <$> l) -> NoDup (f <$> l).
Proof.
  intros K. induction l as [|a l IH]; [constructor|].
  rewrite !fmap_cons, !NoDup_cons. intros [N D]. split; [|auto].
  intros (y & E & Hy)%list_elem_of_fmap. apply N.
  apply list_elem_of_fmap. exists y. split; [now apply K|done].
Qed.

Lemma load_players_index_distinct `{Runtime} (df_raw : frame)
    (table : list prow) (all_teams : list string) :
  load_players df_raw = Ok (table, all_teams) ->
  NoDup (fst <$> rows df_raw) ->
  NoDup (row_name <$> table).
Proof.
  intros L D. rewrite (load_players_row_names _ _ _ L).
  refine (sublist_NoDup _ _ D _).
  apply fmap_sublist, sublist_filter.
Qed.

(** C7.  In the table [load_players] returns, every [unique_id] is the
    name, an underscore and the row's index label; so when the index labels
    of the table are pairwise distinct, its [unique_id]s are pairwise
    distinct, whatever the names are. *)
Theorem load_players_unique_ids `{Runtime} (df_raw : frame)
    (table : list prow) (all_teams : list string) :
  load_players df_raw = Ok (table, all_teams) ->
  NoDup (row_name <$> table) ->
  NoDup (unique_id <$> table) /\
  forall r, r ∈ table ->
    unique_id r
    = py_str (get (cells r) "NAME" (PStr "")) +:+ "_" +:+ PyStr.of_Z (row_name r).
Proof.
  intros L DN.
  destruct (load_players_inv _ _ _ L) as (rs & _ & ->). split.
  - revert DN. rewrite <- !list_fmap_compose. apply NoDup_fmap_through.
    intros [i c] [j c']. unfold compose, table_row.
    cbn [unique_id row_name fst snd]. apply unique_id_inj.
  - intros r (b & -> & _)%list_elem_of_fmap. reflexivity.
Qed.

(** ** The order of [sorted] on strings *)

Lemma string_leb_trans (s t u : string) :
  String.leb s t = true -> String.leb t u = true -> String.leb s u = true.
Proof.
  unfold String.leb. revert t u.
  induction s as [|a s IH]; intros [|b t] [|c u]; simpl; try done.
  unfold Ascii.compare.
  destruct (N.compare_spec (N_of_ascii a) (N_of_ascii b)) as [E1|L1|G1];
    destruct (N.compare_spec (N_of_ascii b) (N_of_ascii c)) as [E2|L2|G2];
    try done;
    destruct (N.compare_spec (N_of_ascii a) (N_of_ascii c)) as [E3|L3|G3];
    try done; try lia.
  apply IH.
Qed.

#[global] Instance str_le_trans : Transitive str_le.
Proof.
  intros s t u H1%Is_true_true H2%Is_true_true. apply Is_true_true.
  eapply string_leb_trans; eassumption.
Qed.

#[global] Instance str_le_antisym : AntiSymm (=) str_le.
Proof.
  intros s t H1%Is_true_true H2%Is_true_true. now apply String.leb_antisym.
Qed.

#[global] Instance str_le_total : Total str_le.
Proof.
  intros s t. unfold str_le.
  destruct (String.leb_total s t) as [E|E]; rewrite E; [left|right]; exact I.
Qed.

Lemma sorted_strs_perm (l k : list string) :
  sorted_strs l = sorted_strs k <-> l ≡ₚ k.
Proof.
  unfold sorted_strs. split.
  - intros E. rewrite <- (merge_sort_Permutation str_le l), E.
    apply merge_sort_Permutation.
  - intros P. apply (Sorted_unique str_le); try apply Sorted_merge_sort; try apply _.
    now rewrite !merge_sort_Permutation.
Qed.

(** ** The lineup builder *)

Lemma firsts_by_from {A K} `{EqDecision K} (key : A -> K) (l : list A) :
  firsts_by key l = firsts_from key [] l.
Proof. reflexivity. Qed.

Lemma firsts_from_cons {A K} `{EqDecision K} (key : A -> K) (seen : list K)
    (x : A) (l : list A) :
  firsts_from key seen (x :: l)
  = (if decide (key x ∈ seen) then [] else [x])
    ++ firsts_from key (seen ++ [key x]) l.
Proof.
  unfold firsts_from. rewrite imap_cons. cbn [take fmap list_fmap].
  rewrite app_nil_r.
  rewrite (imap_ext _ (fun i y =>
     if decide (key y ∈ (seen ++ [key x]) ++ (key <$> take i l))
     then None else Some y)).
  - destruct (decide (key x ∈ seen)); reflexivity.
  - intros i y _. unfold compose. cbn [take]. rewrite fmap_cons, <- app_assoc.
    reflexivity.
Qed.

Lemma firsts_from_sublist {A K} `{EqDecision K} (key : A -> K) (seen : list K)
    (l : list A) :
  firsts_from key seen l `sublist_of` l.
Proof.
  revert seen. induction l as [|x l IH]; intros seen; [reflexivity|].
  rewrite firsts_from_cons. destruct (decide _); simpl.
  - apply sublist_cons, IH.
  - apply sublist_skip, IH.
Qed.

Lemma firsts_from_fresh {A K} `{EqDecision K} (key : A -> K) (seen : list K)
    (l : list A) (x : A) :
  x ∈ firsts_from key seen l -> key x ∉ seen.
Proof.
  revert seen. induction l as [|y l IH]; intros seen; [inversion 1|].
  rewrite firsts_from_cons. intros [Hx|Hx]%elem_of_app.
  - destruct (decide _); [inversion Hx|]. apply list_elem_of_singleton in Hx.
    now subst.
  - apply IH in Hx. intros K0. apply Hx, elem_of_app. now left.
Qed.

Lemma firsts_from_NoDup {A K} `{EqDecision K} (key : A -> K) (seen : list K)
    (l : list A) :
  NoDup (key <$> firsts_from key seen l).
Proof.
  revert seen. induction l as [|y l IH]; intros seen; [constructor|].
  rewrite firsts_from_cons. destruct (decide _); simpl; [apply IH|].
  apply NoDup_cons. split; [|apply IH].
  intros (x & E & Hx)%list_elem_of_fmap. apply firsts_from_fresh in Hx.
  apply Hx, elem_of_app. right. rewrite E. left.
Qed.

Lemma firsts_from_covers {A K} `{EqDecision K} (key : A -> K) (seen : list K)
    (l : list A) (x : A) :
  x ∈ l -> key x ∈ seen \/ key x ∈ key <$> firsts_from key seen l.
Proof.
  revert seen. induction l as [|y l IH]; intros seen; [inversion 1|].
  rewrite firsts_from_cons, fmap_app. intros [->|Hx]%elem_of_cons.
  - destruct (decide _); [now left|]. right. apply elem_of_app. left. simpl. left.
  - destruct (IH (seen ++ [key y]) Hx) as [[K0|K0]%elem_of_app|K0].
    + now left.
    + apply list_elem_of_singleton in K0. rewrite K0.
      destruct (decide _); [now left|]. right. apply elem_of_app. left. simpl. left.
    + right. apply elem_of_app. now right.
Qed.

(** What the generator's end prints. *)
Lemma generate_spec (n : Z) (fin : option exn) (cands : list Lineup)
    (u : list (list (string * Player))) (seenS : gset (list string))
    (seenL : list (list string)) :
  (forall k, k ∈ seenS <-> k ∈ seenL) ->
  generate n cands fin u seenS
  = ((if decide (Z.to_nat (Z.max 1 (n - Z.of_nat (length u)))
                 <= length (firsts_from lineup_key seenL cands))%nat
      then []
      else match fin with
           | Some e => ["Optimizer error: " +:+ exn_text e]
           | None => []
           end),
     u ++ (slot_players <$>
             take (Z.to_nat (Z.max 1 (n - Z.of_nat (length u))))
                  (firsts_from lineup_key seenL cands))).
Proof.
  revert u seenS seenL. induction cands as [|c cands IH]; intros u seenS seenL I.
  - cbn [generate]. unfold firsts_from. cbn.
    rewrite decide_False by lia. now rewrite take_nil, app_nil_r.
  - cbn [generate]. rewrite firsts_from_cons.
    destruct (decide (lineup_key c ∈ seenL)) as [i|i].
    + rewrite bool_decide_eq_true_2 by (now apply I). cbn [app].
      apply IH. intros k. rewrite I, elem_of_app, list_elem_of_singleton.
      split; [tauto|]. intros [?| ->]; [done|exact i].
    + rewrite bool_decide_eq_false_2 by (now rewrite I).
      rewrite length_app. cbn [length app].
      destruct (Z.leb_spec n (Z.of_nat (length u + 1))) as [L|L].
      * replace (Z.to_nat (Z.max 1 (n - Z.of_nat (length u)))) with 1%nat by lia.
        rewrite decide_True by lia. reflexivity.
      * rewrite (IH (u ++ [zip DK_NFL_SLOTS (players c)])
                   ({[lineup_key c]} ∪ seenS) (seenL ++ [lineup_key c])).
        2:{ intros k. rewrite elem_of_union, elem_of_singleton, I, elem_of_app,
              list_elem_of_singleton. tauto. }
        rewrite length_app. cbn [length].
        replace (Z.to_nat (Z.max 1 (n - Z.of_nat (length u))))
          with (S (Z.to_nat (Z.max 1 (n - Z.of_nat (length u + 1))))) by lia.
        cbn [take fmap list_fmap]. rewrite <- app_assoc. cbn [app].
        f_equal. destruct (decide _), (decide _); try reflexivity; lia.
Qed.

Lemma generate_from_start (n : Z) (fin : option exn) (cands : list Lineup) :
  generate n cands fin [] ∅
  = ((if decide (Z.to_nat (Z.max 1 n) <= length (firsts_by lineup_key cands))%nat
      then []
      else match fin with
           | Some e => ["Optimizer error: " +:+ exn_text e]
           | None => []
           end),
     slot_players <$> take (Z.to_nat (Z.max 1 n)) (firsts_by lineup_key cands)).
Proof.
  rewrite (generate_spec n fin cands [] ∅ []) by set_solver.
  cbn [length app]. rewrite Z.sub_0_r. reflexivity.
Qed.

Lemma build_lineups_unfold `{Runtime} `{Optimizer} (df : list prow) (n : Z)
    (locked_ids excluded_ids : list string) (stack_team : string)
    (players : list Player) (o1 : optimizer) :
  load_pool df excluded_ids = Ok (players, o1) ->
  build_lineups df n locked_ids excluded_ids stack_team
  = ((apply_stack o1 stack_team).1
       ++ (finish players (apply_stack o1 stack_team).2 n locked_ids).1,
     (finish players (apply_stack o1 stack_team).2 n locked_ids).2).
Proof.
  intros L. unfold build_lineups, prepare, finish. rewrite L.
  destruct (apply_stack o1 stack_team) as [log1 o2]. cbn [fst snd].
  destruct (configure players o2 locked_ids) as [o3|e]; cbn [fst snd].
  - destruct (opt_optimize o3 (n * 3)) as [cands fin].
    destruct (generate n cands fin [] ∅) as [log2 u]. reflexivity.
  - now rewrite app_nil_r.
Qed.

Lemma lineup_key_perm (a b : Lineup) :
  lineup_key a = lineup_key b <-> lineup_ids a ≡ₚ lineup_ids b.
Proof. apply sorted_strs_perm. Qed.

(** C4.  Once the pool is loaded and the optimizer configured, a build
    for [n >= 1] lineups asks the optimizer for [n * 3] candidates and
    returns, each beside the slot names, the first [n] of the candidates
    that no earlier candidate equals in its sorted ids: at most [n]
    lineups, in the optimizer's order, no two of them with the same ids up
    to order. *)
Theorem build_lineups_unique `{Runtime} `{Optimizer} (df : list prow) (n : Z)
    (locked_ids excluded_ids : list string) (stack_team : string)
    (log1 : list string) (players : list Player) (o : optimizer) :
  1 <= n ->
  prepare df locked_ids excluded_ids stack_team = (log1, Ok (players, o)) ->
  let cands := (opt_optimize o (n * 3)).1 in
  let kept := take (Z.to_nat n) (firsts_by lineup_key cands) in
  (build_lineups df n locked_ids excluded_ids stack_team).2
    = Ok (slot_players <$> kept) /\
  Z.of_nat (length (slot_players <$> kept)) <= n /\
  kept `sublist_of` cands /\
  NoDup (lineup_key <$> kept) /\
  (forall i j a b,
     i <> j -> kept !! i = Some a -> kept !! j = Some b ->
     ~ lineup_ids a ≡ₚ lineup_ids b) /\
  (forall c, c ∈ cands ->
     exists a, a ∈ firsts_by lineup_key cands /\ lineup_ids a ≡ₚ lineup_ids c).
Proof.
  intros Hn P cands kept.
  assert (NoDup (lineup_key <$> kept)) as ND.
  { refine (sublist_NoDup _ _ (firsts_from_NoDup lineup_key [] cands) _).
    apply fmap_sublist, sublist_take. }
  split; [|split; [|split; [|split; [exact ND|split]]]].
  - unfold build_lineups. rewrite P.
    subst kept cands. destruct (opt_optimize o (n * 3)) as [cands fin].
    rewrite generate_from_start. cbn [fst snd].
    now replace (Z.max 1 n) with n by lia.
  - rewrite length_fmap. subst kept. rewrite length_take. lia.
  - subst kept. etrans; [apply sublist_take|].
    apply (firsts_from_sublist lineup_key []).
  - intros i j a b Hij Ha Hb Pab. apply lineup_key_perm in Pab.
    apply Hij. eapply NoDup_lookup; [exact ND| |].
    + rewrite list_lookup_fmap, Ha. reflexivity.
    + rewrite list_lookup_fmap, Hb. simpl. now rewrite Pab.
  - intros c Hc.
    destruct (firsts_from_covers lineup_key [] cands c Hc) as [K|K];
      [inversion K|].
    apply list_elem_of_fmap in K as (a & E & Ha). exists a. split; [exact Ha|].
    now apply lineup_key_perm.
Qed.

(** C5, as amended.  When the optimizer raises during the generation,
    before the build has its [n] unique lineups, [build_lineups] catches
    the exception, prints it after "Optimizer error:" and returns the
    unique lineups it collected before the error, the empty list when the
    optimizer raised before its first lineup; it does not raise. *)
Theorem build_lineups_optimizer_error `{Runtime} `{Optimizer} (df : list prow)
    (n : Z) (locked_ids excluded_ids : list string) (stack_team : string)
    (log1 : list string) (players : list Player) (o : optimizer)
    (cands : list Lineup) (e : exn) :
  prepare df locked_ids excluded_ids stack_team = (log1, Ok (players, o)) ->
  opt_optimize o (n * 3) = (cands, Some e) ->
  (length (firsts_by lineup_key cands) < Z.to_nat (Z.max 1 n))%nat ->
  build_lineups df n locked_ids excluded_ids stack_team
  = (log1 ++ ["Optimizer error: " +:+ exn_text e],
     Ok (slot_players <$> firsts_by lineup_key cands)) /\
  (cands = [] ->
   (build_lineups df n locked_ids excluded_ids stack_team).2 = Ok []).
Proof.
  intros P O L.
  assert (build_lineups df n locked_ids excluded_ids stack_team
          = (log1 ++ ["Optimizer error: " +:+ exn_text e],
             Ok (slot_players <$> firsts_by lineup_key cands))) as E.
  { unfold build_lineups. rewrite P, O, generate_from_start.
    rewrite decide_False by lia. rewrite take_ge by lia. reflexivity. }
  split; [exact E|]. intros ->. now rewrite E.
Qed.

(** *** Locked players *)

Lemma lock_players_matched `{Optimizer} (players : list Player)
    (locked_ids : list string) (o : optimizer) :
  lock_players players locked_ids o = force_all (matched players locked_ids) o.
Proof.
  revert o. induction locked_ids as [|pid ids IH]; intros o; [reflexivity|].
  cbn [lock_players]. unfold matched. cbn [omap list_omap].
  destruct (find _ players) as [p|]; cbn [force_all].
  - destruct (opt_add_player_to_lineup o p) as [o'|e]; [|reflexivity].
    apply IH.
  - apply IH.
Qed.




(** C9.  With the pool loaded and a team to stack, the build asks the
    optimizer for a stack of that team with one QB slot and two slots open
    to RB, WR or TE.  When the request raises, the exception is printed
    after "Stacking error:" and the build goes on from the optimizer as the
    failed call left it; if the call left it unchanged, the rest of the
    build is the build without a stack.  The build does not fail for it. *)
Theorem build_lineups_stack `{Runtime} `{Optimizer} (df : list prow) (n : Z)
    (locked_ids excluded_ids : list string) (stack_team : string)
    (players : list Player) (o1 : optimizer) :
  stack_team <> "" ->
  load_pool df excluded_ids = Ok (players, o1) ->
  (stack_positions (stack_request stack_team)
     = [["QB"]; ["RB"; "WR"; "TE"]; ["RB"; "WR"; "TE"]] /\
   stack_team_of (stack_request stack_team) = stack_team) /\
  (forall o',
     opt_add_stack o1 (stack_request stack_team) = (o', None) ->
     build_lineups df n locked_ids excluded_ids stack_team
     = finish players o' n locked_ids) /\
  (forall o' e,
     opt_add_stack o1 (stack_request stack_team) = (o', Some e) ->
     build_lineups df n locked_ids excluded_ids stack_team
     = (("Stacking error: " +:+ exn_text e) :: (finish players o' n locked_ids).1,
        (finish players o' n locked_ids).2) /\
     (o' = o1 ->
      finish players o' n locked_ids
      = build_lineups df n locked_ids excluded_ids "")).
Proof.
  intros N L. apply String.eqb_neq in N.
  split; [split; reflexivity|].
  pose proof (build_lineups_unfold df n locked_ids excluded_ids stack_team _ _ L) as B.
  unfold apply_stack in B. rewrite N in B. split.
  - intros o' E. rewrite E in B. cbn [fst snd app] in B. rewrite B.
    now destruct (finish players o' n locked_ids).
  - intros o' e E. rewrite E in B. cbn [fst snd app] in B. split; [exact B|].
    intros ->.
    rewrite (build_lineups_unfold df n locked_ids excluded_ids "" _ _ L).
    unfold apply_stack. cbn [String.eqb fst snd app].
    now destruct (finish players o1 n locked_ids).
Qed.

(** ** The salary parser in the loader *)

Lemma load_players_salaries `{Runtime} (df_raw : frame) (table : list prow)
    (all_teams : list string) :
  load_players df_raw = Ok (table, all_teams) ->
  forall r, r ∈ table ->
    exists vals,
      (row_name r, vals) ∈ rows df_raw /\
      0 < raw_salary df_raw vals /\
      cells r !! "SALARY" = Some (PInt (raw_salary df_raw vals)).
Proof.
  intros L r Hr. destruct (load_players_inv _ _ _ L) as (rs & M & ->).
  destruct (load_rows_kept _ _ _ M) as [_ K].
  apply list_elem_of_fmap in Hr as (b & -> & Hb).
  destruct (K _ Hb) as ([i vals] & Hi & E).
  destruct (load_row_some _ _ _ E) as (N & S & _ & ES & _).
  exists vals. cbn [table_row row_name cells fst snd] in *.
  rewrite N. done.
Qed.

(** C2, as amended.  [parse_salary] drops every "$", "," and "k" of the
    text and reads the rest as a number: "$5,000", "5000", "5k" and "5.5k"
    yield 5000, 5000, 5000 and 5500.  A number below 100 is multiplied by
    1000 and any other number is taken as it stands, whether or not a "k"
    was there; a text that is no number yields 0; and every row of the
    table [load_players] returns comes from a source row whose parsed
    salary is above 0, which it holds as its SALARY. *)
Theorem parse_salary_spec `{Runtime} :
  (parse_salary (PStr "$5,000") = 5000 /\
   parse_salary (PStr "5000") = 5000 /\
   parse_salary (PStr "5k") = 5000 /\
   parse_salary (PStr "5.5k") = 5500) /\
  (forall s t,
     filter (fun a => a ∉ salary_marks) (PyStr.chars s)
     = filter (fun a => a ∉ salary_marks) (PyStr.chars t) ->
     parse_salary (PStr s) = parse_salary (PStr t)) /\
  (forall x f,
     PyStr.to_float (salary_text x) = Ok f ->
     parse_salary x
     = if (f <? 100)%float then int_or_zero (PyFloat.to_int (f * 1000)%float)
       else int_or_zero (PyFloat.to_int f)) /\
  (forall x e,
     PyStr.to_float (salary_text x) = Raise e -> parse_salary x = 0) /\
  (forall df_raw table all_teams,
     load_players df_raw = Ok (table, all_teams) ->
     forall r, r ∈ table ->
       exists vals,
         (row_name r, vals) ∈ rows df_raw /\
         0 < raw_salary df_raw vals /\
         cells r !! "SALARY" = Some (PInt (raw_salary df_raw vals))).
Proof.
  split; [repeat split; vm_compute; reflexivity|].
  split; [|split; [exact parse_salary_number|
                   split; [exact parse_salary_unparseable|
                           exact load_players_salaries]]].
  intros s t E. unfold parse_salary. now rewrite (salary_text_marks s t E).
Qed.

(** ** Worked examples *)

(** "150k" is read as 150, the same as "150": the suffix does not make it
    150000. *)
Lemma parse_salary_k_counterexample :
  @parse_salary sample_runtime (PStr "150k") = 150 /\
  @parse_salary sample_runtime (PStr "150") = 150 /\
  @parse_salary sample_runtime (PStr "150k") <> 150 * 1000.
Proof.
  repeat split; vm_compute; [reflexivity..|discriminate].
Qed.

(** The sample frame loads into three rows, each from a source row with a
    positive parsed salary. *)
Lemma parse_salary_spec_witness :
  length sample_table = 3%nat /\
  Forall (fun r =>
            exists vals,
              (row_name r, vals) ∈ rows sample_frame /\
              0 < @raw_salary sample_runtime sample_frame vals /\
              cells r !! "SALARY"
              = Some (PInt (@raw_salary sample_runtime sample_frame vals)))
         sample_table.
Proof.
  split; [vm_compute; reflexivity|].
  unfold sample_table.
  destruct (@load_players sample_runtime sample_frame) as [[table teams]|e] eqn:E;
    [|constructor].
  apply Forall_forall. intros r Hr.
  exact (proj2 (proj2 (proj2 (proj2 (@parse_salary_spec sample_runtime))))
           sample_frame table teams E r Hr).
Defined.

(** "7.5k" reads as 7.5, below 100, and yields int(7.5 * 1000). *)
Lemma parse_salary_scales_by_magnitude_witness :
  @parse_salary sample_runtime (PStr "7.5k")
  = int_or_zero (PyFloat.to_int (7.5 * 1000)%float).
Proof.
  apply (proj1 (@parse_salary_scales_by_magnitude sample_runtime)
           (PStr "7.5k") 7.5%float); vm_compute; reflexivity.
Defined.

(** One past five in the afternoon of the clock: 785 minutes. *)
Lemma filter_by_game_time_spec_witness :
  parse_hour_minute (PStr (clock_text 1 5 "pm"))
  = Some (minutes_since_midnight 1 5 true).
Proof.
  apply (proj1 (proj2 (proj2 (proj2 (proj2 filter_by_game_time_spec))))
           1 5 "pm"); [lia|lia|].
  unfold pm_marks. apply list_elem_of_here.
Defined.

(** The sample frame: rows 0, 1 and 2 pass both filters. *)
Lemma load_players_positive_witness :
  exists table all_teams,
    @load_players sample_runtime sample_frame = Ok (table, all_teams) /\
    (forall r, r ∈ table ->
       exists z f,
         cells r !! "SALARY" = Some (PInt z) /\ 0 < z /\
         cells r !! "FINAL PROJECTION" = Some (PFloat f) /\
         (0 <? f)%float = true) /\
    row_name <$> table = [0; 1; 2].
Proof.
  destruct (@load_players sample_runtime sample_frame) as [[table teams]|e] eqn:E;
    [|vm_compute in E; discriminate].
  exists table, teams. split; [reflexivity|].
  destruct (@load_players_positive sample_runtime sample_frame table teams E)
    as [P N].
  split; [exact P|]. rewrite N. vm_compute. reflexivity.
Defined.

(** The two rows named Mike Williams get two ids. *)
Lemma load_players_unique_ids_witness :
  exists table all_teams,
    @load_players sample_runtime sample_frame = Ok (table, all_teams) /\
    NoDup (unique_id <$> table) /\
    unique_id <$> sample_table
    = ["Josh Allen_0"; "Mike Williams_1"; "Mike Williams_2"].
Proof.
  destruct (@load_players sample_runtime sample_frame) as [[table teams]|e] eqn:E;
    [|vm_compute in E; discriminate].
  exists table, teams. split; [reflexivity|]. split; [|vm_compute; reflexivity].
  apply (@load_players_unique_ids sample_runtime sample_frame table teams E).
  apply (@load_players_index_distinct sample_runtime sample_frame table teams E).
  refine (bool_decide_unpack _ _). vm_compute. exact I.
Defined.

(** Three candidates, the second the first in another order: two lineups
    are returned for a request of two. *)
Lemma build_lineups_unique_witness :
  exists log1 players o,
    @prepare sample_runtime (sample_optimizer false sample_cands None)
      sample_table [] [] "" = (log1, Ok (players, o)) /\
    (@build_lineups sample_runtime (sample_optimizer false sample_cands None)
       sample_table 2 [] [] "").2
    = Ok [slot_players (sample_lineup ["a"; "b"]);
          slot_players (sample_lineup ["c"; "a"])].
Proof.
  destruct (@prepare sample_runtime (sample_optimizer false sample_cands None)
              sample_table [] [] "") as [log1 [[players o]|e]] eqn:P;
    [|vm_compute in P; discriminate].
  exists log1, players, o. split; [reflexivity|].
  rewrite (proj1 (@build_lineups_unique sample_runtime
                    (sample_optimizer false sample_cands None)
                    sample_table 2 [] [] "" log1 players o ltac:(lia) P)).
  vm_compute. reflexivity.
Defined.

(** The optimizer yields one lineup and then raises: the lineup is
    returned, not the empty list. *)
Lemma build_lineups_error_counterexample :
  @build_lineups sample_runtime
    (sample_optimizer false [sample_lineup ["a"; "b"]]
       (Some (LibraryError "infeasible")))
    sample_table 2 [] [] ""
  = (["Optimizer error: infeasible"],
     Ok [slot_players (sample_lineup ["a"; "b"])]) /\
  (@build_lineups sample_runtime
     (sample_optimizer false [sample_lineup ["a"; "b"]]
        (Some (LibraryError "infeasible")))
     sample_table 2 [] [] "").2 <> Ok [].
Proof.
  split; vm_compute; [reflexivity|discriminate].
Qed.

Lemma build_lineups_optimizer_error_witness :
  exists log1 players o,
    @prepare sample_runtime
      (sample_optimizer false [sample_lineup ["a"; "b"]]
         (Some (LibraryError "infeasible")))
      sample_table [] [] "" = (log1, Ok (players, o)) /\
    @build_lineups sample_runtime
      (sample_optimizer false [sample_lineup ["a"; "b"]]
         (Some (LibraryError "infeasible")))
      sample_table 2 [] [] ""
    = (log1 ++ ["Optimizer error: infeasible"],
       Ok (slot_players <$> firsts_by lineup_key [sample_lineup ["a"; "b"]])).
Proof.
  destruct (@prepare sample_runtime
              (sample_optimizer false [sample_lineup ["a"; "b"]]
                 (Some (LibraryError "infeasible")))
              sample_table [] [] "") as [log1 [[players o]|e]] eqn:P;
    [|vm_compute in P; discriminate].
  exists log1, players, o. split; [reflexivity|].
  apply (@build_lineups_optimizer_error sample_runtime
           (sample_optimizer false [sample_lineup ["a"; "b"]]
              (Some (LibraryError "infeasible")))
           sample_table 2 [] [] "" log1 players o
           [sample_lineup ["a"; "b"]] (LibraryError "infeasible") P).
  - reflexivity.
  - vm_compute. lia.
Defined.


(** A stack the optimizer refuses: the error is printed, the lineups
    come all the same. *)
Lemma build_lineups_stack_witness :
  @build_lineups sample_runtime (sample_optimizer true sample_cands None)
    sample_table 1 [] [] "BUF"
  = (["Stacking error: unexpected keyword argument"],
     Ok [slot_players (sample_lineup ["a"; "b"])]).
Proof.
  destruct (@load_pool sample_runtime (sample_optimizer true sample_cands None)
              sample_table []) as [[players o1]|e] eqn:L;
    [|vm_compute in L; discriminate].
  destruct (@build_lineups_stack sample_runtime
              (sample_optimizer true sample_cands None)
              sample_table 1 [] [] "BUF" players o1 ltac:(discriminate) L)
    as (_ & _ & K).
  destruct (K o1 (LibraryError "unexpected keyword argument") eq_refl) as [B _].
  rewrite B. vm_compute. reflexivity.
Defined.

(** * Further properties of the code *)

(** ** The player pool *)

Lemma map_res_Forall2 {A B} (f : A -> res B) (l : list A) (rs : list B) :
  map_res f l = Ok rs -> Forall2 (fun a r => f a = Ok r) l rs.
Proof.
  revert rs. induction l as [|a l IH]; intros rs.
  - intros [= <-]. constructor.
  - cbn [map_res]. destruct (f a) as [b|] eqn:E; [|discriminate].
    unfold mbind, res_bind. destruct (map_res f l) as [bs|]; [|discriminate].
    intros [= <-]. constructor; [exact E|]. now apply IH.
Qed.

Lemma player_of_row_some `{Runtime} (row : prow) (p : Player) :
  player_of_row row = Ok (Some p) ->
  0 < salary p /\ (fppg p <=? 0)%float = false /\
  positions p <> [] /\ positions p <> [""] /\
  player_id p = unique_id row /\ last_name p = "".
Proof.
  unfold player_of_row.
  destruct (py_int _) as [z|]; [|discriminate]. cbn [mbind res_bind].
  destruct (safe_float _ 0) as [f|]; [|discriminate]. cbn [mbind res_bind].
  destruct (z <=? 0) eqn:Z; [discriminate|]. cbn [orb].
  destruct (f <=? 0)%float eqn:F; [discriminate|]. cbn [orb].
  destruct (bool_decide (_ = [])) eqn:P1; [discriminate|]. cbn [orb].
  destruct (bool_decide (_ = [""])) eqn:P2; [discriminate|].
  intros [= <-]. cbn [salary fppg positions player_id last_name].
  apply bool_decide_eq_false in P1, P2. apply Z.leb_gt in Z. done.
Qed.

Lemma build_players_from `{Runtime} (df : list prow) (ps : list Player) :
  build_players df = Ok ps ->
  (forall p, p ∈ ps -> exists r, r ∈ df /\ player_of_row r = Ok (Some p)) /\
  player_id <$> ps `sublist_of` unique_id <$> df.
Proof.
  unfold build_players.
  destruct (map_res player_of_row df) as [os|] eqn:M; [|discriminate].
  cbn [mbind res_bind]. intros [= <-].
  apply map_res_Forall2 in M. induction M as [|r o df os E M IH].
  - split; [inversion 1|reflexivity].
  - destruct IH as [IH1 IH2]. destruct o as [p|]; cbn [omap list_omap id].
    + split.
      * intros p' [->|Hp]%elem_of_cons.
        -- exists r. split; [left|exact E].
        -- destruct (IH1 _ Hp) as (r' & Hr & E'). exists r'. split; [now right|done].
      * rewrite !fmap_cons.
        destruct (player_of_row_some _ _ E) as (_ & _ & _ & _ & -> & _).
        now apply sublist_skip.
    + split.
      * intros p' Hp. destruct (IH1 _ Hp) as (r' & Hr & E').
        exists r'. split; [now right|done].
      * rewrite fmap_cons. now apply sublist_cons.
Qed.

Lemma load_pool_inv `{Runtime} `{Optimizer} (df : list prow)
    (excluded_ids : list string) (ps : list Player) (o : optimizer) :
  load_pool df excluded_ids = Ok (ps, o) ->
  build_players (exclude_players excluded_ids df) = Ok ps /\
  opt_load_players get_optimizer ps = Ok o.
Proof.
  unfold load_pool, exclude_players.
  destruct (build_players _) as [ps'|]; [|discriminate]. cbn [mbind res_bind].
  destruct (opt_load_players _ _) as [o'|] eqn:E; [|discriminate].
  cbn [mbind res_bind]. intros [= <- <-]. now rewrite E.
Qed.

(** X1.  Every record handed to the optimizer can be rostered: its salary is
    above 0, its projection is not at or below 0 (a NaN passes), and it has
    a position that is not the empty text. *)
Theorem load_pool_rosterable `{Runtime} `{Optimizer} (df : list prow)
    (excluded_ids : list string) (ps : list Player) (o : optimizer) :
  load_pool df excluded_ids = Ok (ps, o) ->
  forall p, p ∈ ps ->
    0 < salary p /\ (fppg p <=? 0)%float = false /\
    positions p <> [] /\ positions p <> [""].
Proof.
  intros L p Hp. destruct (load_pool_inv _ _ _ _ L) as [B _].
  destruct (build_players_from _ _ B) as [K _].
  destruct (K _ Hp) as (r & _ & E).
  destruct (player_of_row_some _ _ E) as (S & F & P1 & P2 & _). done.
Qed.

(** X2.  The records handed to the optimizer carry the ids of rows of the
    table, in the order of the table, and none of them an excluded id. *)
Theorem load_pool_ids `{Runtime} `{Optimizer} (df : list prow)
    (excluded_ids : list string) (ps : list Player) (o : optimizer) :
  load_pool df excluded_ids = Ok (ps, o) ->
  player_id <$> ps `sublist_of` unique_id <$> df /\
  forall p, p ∈ ps -> player_id p ∉ excluded_ids.
Proof.
  intros L. destruct (load_pool_inv _ _ _ _ L) as [B _].
  destruct (build_players_from _ _ B) as [K S]. split.
  - etrans; [exact S|]. apply fmap_sublist. unfold exclude_players.
    destruct (bool_decide _); [reflexivity|apply sublist_filter].
  - intros p Hp. destruct (K _ Hp) as (r & Hr & E).
    destruct (player_of_row_some _ _ E) as (_ & _ & _ & _ & -> & _).
    unfold exclude_players in Hr. destruct (bool_decide _) eqn:D.
    + apply bool_decide_eq_true in D. rewrite D. apply not_elem_of_nil.
    + now apply list_elem_of_filter in Hr as [? _].
Qed.

Lemma load_pool_excluded `{Runtime} `{Optimizer} (df : list prow)
    (excluded_ids : list string) :
  load_pool (exclude_players excluded_ids df) excluded_ids
  = load_pool df excluded_ids.
Proof.
  unfold load_pool, exclude_players.
  destruct (bool_decide (excluded_ids = [])); [reflexivity|].
  f_equal. f_equal. rewrite list_filter_filter. apply list_filter_iff.
  tauto.
Qed.

(** X3.  Excluding the rows before the build changes nothing: the build
    excludes them itself. *)
Theorem build_lineups_excluded_twice `{Runtime} `{Optimizer} (df : list prow)
    (n : Z) (locked_ids excluded_ids : list string) (stack_team : string) :
  build_lineups (exclude_players excluded_ids df) n locked_ids excluded_ids
    stack_team
  = build_lineups df n locked_ids excluded_ids stack_team.
Proof.
  unfold build_lineups, prepare. now rewrite load_pool_excluded.
Qed.

(** ** What a build returns and when it raises *)

Lemma build_lineups_result `{Runtime} `{Optimizer} (df : list prow) (n : Z)
    (locked_ids excluded_ids : list string) (stack_team : string)
    (log : list string) (ls : list (list (string * Player))) :
  build_lineups df n locked_ids excluded_ids stack_team = (log, Ok ls) ->
  exists log1 ps o,
    prepare df locked_ids excluded_ids stack_team = (log1, Ok (ps, o)) /\
    ls = slot_players <$>
           take (Z.to_nat (Z.max 1 n))
                (firsts_by lineup_key (opt_optimize o (n * 3)).1).
Proof.
  unfold build_lineups.
  destruct (prepare _ _ _ _) as [log1 [[ps o]|e]]; [|discriminate].
  destruct (opt_optimize o (n * 3)) as [cands fin] eqn:O.
  rewrite generate_from_start. intros [= _ <-].
  exists log1, ps, o. rewrite O. split; reflexivity.
Qed.

Lemma zip_fst_take {A B} (l : list A) (k : list B) :
  (zip l k).*1 = take (length k) l.
Proof.
  revert k. induction l as [|a l IH]; intros [|b k]; cbn; try reflexivity.
  now rewrite IH.
Qed.

Lemma zip_snd_take {A B} (l : list A) (k : list B) :
  (zip l k).*2 = take (length l) k.
Proof.
  revert k. induction l as [|a l IH]; intros [|b k]; cbn; try reflexivity.
  now rewrite IH.
Qed.

(** X4.  Every lineup a build returns has at most nine entries: the first
    nine players of a lineup the configured optimizer yielded, beside the
    slot names QB, RB, RB, WR, WR, WR, TE, FLEX, DST in this order. *)
Theorem build_lineups_slots `{Runtime} `{Optimizer} (df : list prow) (n : Z)
    (locked_ids excluded_ids : list string) (stack_team : string)
    (log : list string) (ls : list (list (string * Player))) :
  build_lineups df n locked_ids excluded_ids stack_team = (log, Ok ls) ->
  forall sl, sl ∈ ls ->
    (length sl <= 9)%nat /\
    sl.*1 = take (length sl) DK_NFL_SLOTS /\
    exists log1 ps o c,
      prepare df locked_ids excluded_ids stack_team = (log1, Ok (ps, o)) /\
      c ∈ (opt_optimize o (n * 3)).1 /\ sl.*2 = take 9 (players c).
Proof.
  intros B sl Hsl.
  destruct (build_lineups_result _ _ _ _ _ _ _ B) as (log1 & ps & o & P & ->).
  apply list_elem_of_fmap in Hsl as (c & -> & Hc).
  assert (length (slot_players c) <= 9)%nat as L.
  { unfold slot_players. rewrite length_zip.
    change (length DK_NFL_SLOTS) with 9%nat. lia. }
  split; [exact L|]. split.
  - unfold slot_players. rewrite zip_fst_take, length_zip.
    destruct (Nat.le_gt_cases (length DK_NFL_SLOTS) (length (players c))).
    + rewrite Nat.min_l by done. now rewrite !take_ge by lia.
    + now rewrite Nat.min_r by lia.
  - exists log1, ps, o, c. split; [exact P|]. split.
    + apply (elem_of_sublist _ _ _ Hc).
      etrans; [apply sublist_take|]. apply (firsts_from_sublist lineup_key []).
    + unfold slot_players. now rewrite zip_snd_take.
Qed.

(** X5.  A build for zero lineups, or fewer, still returns the optimizer's
    first lineup when there is one: the loop tests the count only after it
    has kept a lineup. *)
Theorem build_lineups_nonpositive `{Runtime} `{Optimizer} (df : list prow)
    (n : Z) (locked_ids excluded_ids : list string) (stack_team : string)
    (log1 : list string) (ps : list Player) (o : optimizer) :
  n <= 0 ->
  prepare df locked_ids excluded_ids stack_team = (log1, Ok (ps, o)) ->
  (build_lineups df n locked_ids excluded_ids stack_team).2
  = Ok (slot_players <$> take 1 (opt_optimize o (n * 3)).1).
Proof.
  intros Hn P. unfold build_lineups. rewrite P.
  destruct (opt_optimize o (n * 3)) as [cands fin].
  rewrite generate_from_start. cbn [fst snd].
  replace (Z.to_nat (Z.max 1 n)) with 1%nat by lia.
  do 2 f_equal. destruct cands as [|c cands]; [reflexivity|].
  rewrite firsts_by_from, firsts_from_cons.
  rewrite decide_False by apply not_elem_of_nil. reflexivity.
Qed.

Lemma prepare_matched `{Runtime} `{Optimizer} (df : list prow)
    (locked_ids excluded_ids : list string) (stack_team : string)
    (ps : list Player) (o1 : optimizer) :
  load_pool df excluded_ids = Ok (ps, o1) ->
  prepare df locked_ids excluded_ids stack_team
  = match mbind (M := res) (force_all (matched ps locked_ids))
            (opt_set_total_teams (apply_stack o1 stack_team).2 4 6) with
    | Ok o4 => ((apply_stack o1 stack_team).1, Ok (ps, o4))
    | Raise e => ((apply_stack o1 stack_team).1, Raise e)
    end.
Proof.
  intros L. unfold prepare, configure. rewrite L.
  destruct (apply_stack o1 stack_team) as [log1 o2]. cbn [fst snd].
  destruct (opt_set_total_teams o2 4 6) as [o3|e]; cbn [mbind res_bind];
    [|reflexivity].
  now rewrite lock_players_matched.
Qed.

(** X6.  A build raises exactly when its setup does: when a row cannot be
    made a player record, or the optimizer refuses the pool, the team
    bounds or a locked player.  A refused stack and an error of the
    generation never make it raise. *)
Theorem build_lineups_raises `{Runtime} `{Optimizer} (df : list prow) (n : Z)
    (locked_ids excluded_ids : list string) (stack_team : string) (e : exn) :
  (build_lineups df n locked_ids excluded_ids stack_team).2 = Raise e <->
  load_pool df excluded_ids = Raise e \/
  exists ps o1,
    load_pool df excluded_ids = Ok (ps, o1) /\
    mbind (M := res) (force_all (matched ps locked_ids))
      (opt_set_total_teams (apply_stack o1 stack_team).2 4 6) = Raise e.
Proof.
  unfold build_lineups.
  destruct (load_pool df excluded_ids) as [[ps o1]|e0] eqn:L.
  - rewrite (prepare_matched _ _ _ _ _ _ L).
    remember (mbind (M := res) (force_all (matched ps locked_ids))
                (opt_set_total_teams (apply_stack o1 stack_team).2 4 6)) as m eqn:M.
    destruct m as [o4|e1].
    + destruct (opt_optimize o4 (n * 3)) as [cands fin].
      destruct (generate n cands fin [] ∅) as [log2 u]. cbn [snd].
      split; [discriminate|].
      intros [[=]|(ps' & o' & [= <- <-] & K)]. rewrite K in M. discriminate.
    + cbn [snd]. split.
      * intros [= ->]. right. exists ps, o1. split; [reflexivity|now rewrite M].
      * intros [[=]|(ps' & o' & [= <- <-] & K)]. rewrite K in M.
        now injection M as ->.
  - unfold prepare. rewrite L. cbn [snd]. split.
    + intros [= ->]. now left.
    + intros [[= ->]|(ps' & o' & [=] & _)]. reflexivity.
Qed.

(** ** More on the game-time filter *)

Lemma game_minutes_with_game_min (r : prow) :
  game_minutes (with_game_min r) = game_minutes r.
Proof.
  unfold game_minutes, with_game_min, set_cell, get. cbn [cells].
  now rewrite lookup_insert_ne.
Qed.

Lemma with_game_min_idem (r : prow) :
  with_game_min (with_game_min r) = with_game_min r.
Proof.
  unfold with_game_min at 1. unfold game_min_cell.
  fold (game_minutes (with_game_min r)). rewrite game_minutes_with_game_min.
  unfold with_game_min, set_cell, game_min_cell. fold (game_minutes r).
  cbn [cells row_name unique_id]. now rewrite insert_insert_eq.
Qed.

Lemma filter_by_game_time_twice (df : list prow) (t1 t2 : string) :
  filter_by_game_time (filter_by_game_time df t1) t2
  = with_game_min <$>
      filter (fun r => time_kept t1 (game_minutes r) /\
                       time_kept t2 (game_minutes r)) df.
Proof.
  rewrite !filter_by_game_time_kept, filter_fmap_comm, <- list_fmap_compose.
  rewrite list_filter_filter.
  erewrite list_fmap_ext; [f_equal; apply list_filter_iff|].
  - intros r. rewrite game_minutes_with_game_min. tauto.
  - intros i r _. apply with_game_min_idem.
Qed.

(** X7.  Filtering a filtered table again by the same name changes nothing,
    and two filters give the same table in either order. *)
Theorem filter_by_game_time_idempotent (df : list prow) (t1 t2 : string) :
  filter_by_game_time (filter_by_game_time df t1) t1
  = filter_by_game_time df t1 /\
  filter_by_game_time (filter_by_game_time df t1) t2
  = filter_by_game_time (filter_by_game_time df t2) t1.
Proof.
  split.
  - rewrite filter_by_game_time_twice, filter_by_game_time_kept. f_equal.
    apply list_filter_iff. tauto.
  - rewrite !filter_by_game_time_twice. f_equal. apply list_filter_iff. tauto.
Qed.

(** X8.  The rows kept under "1pm" and the rows kept under "late" are among
    the rows kept under "all", in the same order, and no row is kept under
    both "1pm" and "late". *)
Theorem filter_by_game_time_windows (df : list prow) :
  filter_by_game_time df "1pm" `sublist_of` filter_by_game_time df "all" /\
  filter_by_game_time df "late" `sublist_of` filter_by_game_time df "all" /\
  forall r, r ∈ filter_by_game_time df "1pm" ->
            r ∉ filter_by_game_time df "late".
Proof.
  assert (forall t, filter_by_game_time df t
                    `sublist_of` filter_by_game_time df "all") as S.
  { intros t. rewrite !filter_by_game_time_kept. apply fmap_sublist.
    rewrite (list_filter_iff (fun r => time_kept t (game_minutes r))
               (fun r => time_kept t (game_minutes r) /\
                         time_kept "all" (game_minutes r))).
    - rewrite <- list_filter_filter. apply sublist_filter.
    - intros r. destruct (game_minutes r); cbn; tauto. }
  split; [apply S|]. split; [apply S|].
  intros r' H1 H2.
  apply filter_by_game_time_elem in H1 as (r1 & _ & -> & K1).
  apply filter_by_game_time_elem in H2 as (r2 & _ & E & K2).
  apply (f_equal game_minutes) in E. rewrite !game_minutes_with_game_min in E.
  rewrite <- E in K2. destruct (game_minutes r1) as [m|]; [|discriminate].
  cbn in K1, K2. apply andb_true_iff in K1 as [_ K1]. lia.
Qed.

(** X9.  The routes filter by time and then exclude; excluding first gives the
    same table. *)
Theorem exclude_players_commutes (df : list prow)
    (excluded_players : list string) (time_filter : string) :
  exclude_players excluded_players (filter_by_game_time df time_filter)
  = filter_by_game_time (exclude_players excluded_players df) time_filter.
Proof.
  unfold exclude_players. destruct (bool_decide _); [reflexivity|].
  rewrite !filter_by_game_time_kept, filter_fmap_comm. f_equal.
  rewrite !list_filter_filter. apply list_filter_iff.
  intros r. unfold with_game_min, set_cell. cbn [unique_id]. tauto.
Qed.

Lemma clock24_parses :
  Forall (fun h =>
    Forall (fun m =>
      parse_hour_minute (PStr (clock_text h m "")) = Some (h * 60 + m))
      (seqZ 0 60))
    (seqZ 0 24).
Proof.
  refine (bool_decide_unpack _ _). vm_compute. exact I.
Qed.

(** X10.  A time on the 24-hour clock, "H:MM" with no am or pm, is read as
    H * 60 + MM; a value that is no text, or a text with no colon, is read
    as no time at all. *)
Theorem parse_hour_minute_24h :
  (forall h m,
     0 <= h <= 23 -> 0 <= m <= 59 ->
     parse_hour_minute (PStr (clock_text h m "")) = Some (h * 60 + m)) /\
  (forall v,
     (forall s, v = PStr s -> PyStr.contains ":" s = false) ->
     parse_hour_minute v = None).
Proof.
  split.
  - intros h m Hh Hm. pose proof clock24_parses as C.
    rewrite Forall_forall in C. specialize (C h ltac:(apply elem_of_seqZ; lia)).
    rewrite Forall_forall in C. apply C. apply elem_of_seqZ. lia.
  - intros [| | | |s] K; try reflexivity.
    unfold parse_hour_minute. now rewrite (K s eq_refl).
Qed.

(** ** More on the loader *)

Lemma float_nan_inv (f : float) : is_nan f = true -> f = nan.
Proof.
  unfold is_nan. rewrite FloatAxioms.eqb_spec. intros E. apply Prim2SF_inj.
  destruct (Prim2SF f) as [[]|[]| |[] m e]; try reflexivity;
    unfold SFeqb, SFcompare in E;
    rewrite ?Z.compare_refl, ?Pos.compare_refl in E; discriminate.
Qed.

Lemma float_infinity_inv (f : float) :
  is_infinity f = true -> f = infinity \/ f = neg_infinity.
Proof.
  unfold is_infinity. rewrite FloatAxioms.eqb_spec, FloatAxioms.abs_spec.
  change (Prim2SF infinity) with (S754_infinity false).
  destruct (Prim2SF f) as [[]|[]| |[] m e] eqn:E; try discriminate; intros _;
    [right|left]; apply Prim2SF_inj; rewrite E; reflexivity.
Qed.

(** X11.  A salary text that reads as NaN or as an infinity ("nan", "inf",
    "-Infinity", "1e999") yields 0, so its row is dropped. *)
Theorem parse_salary_not_finite `{Runtime} (x : pyval) (f : float) :
  PyStr.to_float (salary_text x) = Ok f ->
  is_finite f = false ->
  parse_salary x = 0.
Proof.
  intros E F. rewrite (parse_salary_number _ _ E).
  unfold is_finite in F. apply negb_false_iff, orb_true_iff in F.
  destruct F as [N|I].
  - rewrite (float_nan_inv _ N). reflexivity.
  - destruct (float_infinity_inv _ I) as [-> | ->]; reflexivity.
Qed.

Lemma rename_to_projection (c : string) :
  rename_column c = "FINAL PROJECTION" ->
  c = "FINAL PROJECTION" \/ c = "PROJECTED POINTS".
Proof.
  unfold rename_column, COLUMN_MAP. cbn [find fst snd].
  repeat match goal with
         | |- context [String.eqb ?k c] =>
             let k' := eval vm_compute in k in
             change k with k';
             destruct (String.eqb_spec k' c) as [<-|?];
             [cbn [fmap option_fmap option_map default from_option snd];
              first [discriminate | intros _; now right]|]
         end.
  cbn. intros ->. now left.
Qed.

(** X12.  Without a projection column, that is when no header reads FINAL
    PROJECTION or PROJECTED POINTS once stripped and upper-cased,
    [load_players] raises [AttributeError]: line 126 calls [fillna] on the
    default 0. *)
Theorem load_players_no_projection `{Runtime} (df_raw : frame) :
  (forall h, h ∈ columns df_raw ->
     PyStr.upper (PyStr.strip h) <> "FINAL PROJECTION" /\
     PyStr.upper (PyStr.strip h) <> "PROJECTED POINTS") ->
  load_players df_raw = Raise AttributeError.
Proof.
  intros N. rewrite load_players_rowwise.
  rewrite bool_decide_eq_false_2; [reflexivity|].
  intros [K|K]%elem_of_app.
  - unfold normalize_columns in K.
    apply list_elem_of_fmap in K as (h & E & Hh).
    symmetry in E. apply rename_to_projection in E. destruct (N h Hh). tauto.
  - apply list_elem_of_filter in K as [_ K]. unfold DISPLAY_COLUMNS in K.
    repeat (apply elem_of_cons in K as [K|K]; [discriminate|]). inversion K.
Qed.

Lemma map_res_total {A B} (f : A -> res B) (l : list A) :
  (forall a, a ∈ l -> exists b, f a = Ok b) ->
  exists bs, map_res f l = Ok bs.
Proof.
  induction l as [|a l IH]; intros K; [now exists []|].
  destruct (K a) as [b E]; [left|].
  destruct IH as [bs E']; [intros a' Ha; apply K; now right|].
  exists (b :: bs). cbn [map_res]. rewrite E. cbn [mbind res_bind].
  now rewrite E'.
Qed.

Lemma load_row_total `{Runtime} (df_raw : frame) (r : Z * list pyval) :
  (forall k, k ∈ ["DVP"; "L5 AVG"; "SZ AVG"] ->
     in_float_range (raw_cells df_raw r.2 !! k) = true) ->
  exists o, load_row df_raw r = Ok o.
Proof.
  intros R. rewrite load_row_unfold. cbv zeta.
  destruct (decide (0 < _)); [|eauto].
  destruct (compute_adjusted_proj _) as [adj|e] eqn:E;
    cbn [mbind res_bind]; [eauto|].
  exfalso. apply compute_adjusted_proj_raise in E as (_ & k & Hk & F).
  unfold heuristic_fields in Hk.
  apply elem_of_cons in Hk as [->|Hk].
  - rewrite lookup_insert_eq in F. discriminate.
  - rewrite lookup_insert_ne, lookup_insert_ne in F
      by (intros <-; repeat (apply elem_of_cons in Hk as [Hk|Hk];
                             [discriminate|]); inversion Hk).
    now rewrite (R k Hk) in F.
Qed.

(** X13.  With a projection column, and no integer beyond the float range in
    the DVP, L5 AVG and SZ AVG cells, [load_players] returns a table. *)
Theorem load_players_returns `{Runtime} (df_raw : frame) :
  "FINAL PROJECTION" ∈ normalize_columns (columns df_raw) ->
  (forall r k, r ∈ rows df_raw -> k ∈ ["DVP"; "L5 AVG"; "SZ AVG"] ->
     in_float_range (raw_cells df_raw r.2 !! k) = true) ->
  exists table all_teams, load_players df_raw = Ok (table, all_teams).
Proof.
  intros P R. rewrite load_players_rowwise.
  rewrite bool_decide_eq_true_2 by (apply elem_of_app; now left).
  destruct (map_res_total (load_row df_raw) (rows df_raw)) as [rs E].
  { intros r Hr. apply load_row_total. intros k. now apply R. }
  rewrite E. cbn [mbind res_bind]. eauto.
Qed.

Lemma load_players_teams_inv `{Runtime} (df_raw : frame) (table : list prow)
    (all_teams : list string) :
  load_players df_raw = Ok (table, all_teams) ->
  exists df, table = table_row <$> df /\ all_teams = team_list df.
Proof.
  rewrite load_players_rowwise.
  destruct (bool_decide _); [|discriminate].
  destruct (map_res _ _) as [rs|]; [|discriminate].
  intros [= <- <-]. now exists (omap (M := list) id rs).
Qed.

(** X14.  The team list [load_players] returns is in ascending order without
    repeats, and holds exactly the upper-cased TEAM cells of the table's
    rows that are not missing and not blank. *)
Theorem load_players_team_list `{Runtime} (df_raw : frame) (table : list prow)
    (all_teams : list string) :
  load_players df_raw = Ok (table, all_teams) ->
  Sorted str_le all_teams /\
  NoDup all_teams /\
  forall t,
    t ∈ all_teams <->
    PyStr.strip t <> "" /\
    exists r, r ∈ table /\
      isna (get (cells r) "TEAM" PNone) = false /\
      t = PyStr.upper (py_str (get (cells r) "TEAM" PNone)).
Proof.
  intros L. destruct (load_players_teams_inv _ _ _ L) as (df & -> & ->).
  unfold team_list, sorted_strs. split; [apply Sorted_merge_sort, _|]. split.
  - rewrite merge_sort_Permutation. apply NoDup_filter, NoDup_remove_dups.
  - intros t. rewrite merge_sort_Permutation, list_elem_of_filter,
      elem_of_remove_dups.
    rewrite <- list_fmap_compose, list_elem_of_fmap.
    assert (Is_true (negb (String.eqb (PyStr.strip t) "")) <-> PyStr.strip t <> "")
      as ->.
    { destruct (String.eqb_spec (PyStr.strip t) ""); cbn; split; done. }
    apply and_iff_compat_l. split.
    + intros (v & -> & Hv). apply list_elem_of_filter in Hv as [N Hv].
      apply list_elem_of_fmap in Hv as (b & -> & Hb).
      exists (table_row b). split; [now apply list_elem_of_fmap_2|].
      cbn [table_row cells]. split; [|reflexivity].
      now apply negb_true_iff, Is_true_true.
    + intros (r & (b & -> & Hb)%list_elem_of_fmap & N & ->).
      cbn [table_row cells] in *. exists (get b.2 "TEAM" PNone).
      split; [reflexivity|]. apply list_elem_of_filter. split.
      * apply Is_true_true, negb_true_iff. exact N.
      * now apply (list_elem_of_fmap_2 (fun r => get r.2 "TEAM" PNone)).
Qed.

(** ** The display of positions *)

Lemma upper_char_space (a : ascii) :
  PyStr.is_space (PyStr.upper_char a) = PyStr.is_space a.
Proof. destruct a as [[] [] [] [] [] [] [] []]; reflexivity. Qed.

Lemma upper_char_idem (a : ascii) :
  PyStr.upper_char (PyStr.upper_char a) = PyStr.upper_char a.
Proof. destruct a as [[] [] [] [] [] [] [] []]; reflexivity. Qed.

Lemma upper_char_mark (a : ascii) :
  PyStr.upper_char a = ","%char \/ PyStr.upper_char a = "/"%char ->
  a = ","%char \/ a = "/"%char.
Proof.
  destruct a as [[] [] [] [] [] [] [] []]; cbv; intros [K|K];
    first [discriminate | now left | now right].
Qed.

Lemma lstrip_map_upper (l : list ascii) :
  PyStr.lstrip_chars (PyStr.upper_char <$> l)
  = PyStr.upper_char <$> PyStr.lstrip_chars l.
Proof.
  induction l as [|a l IH]; [reflexivity|].
  rewrite fmap_cons. cbn [PyStr.lstrip_chars]. rewrite upper_char_space.
  destruct (PyStr.is_space a); [exact IH|reflexivity].
Qed.

Lemma fmap_rev {A B} (f : A -> B) (l : list A) : f <$> rev l = rev (f <$> l).
Proof.
  induction l as [|a l IH]; [reflexivity|].
  cbn [rev]. rewrite fmap_app, IH. reflexivity.
Qed.

Lemma strip_map_upper (l : list ascii) :
  PyStr.strip_chars (PyStr.upper_char <$> l)
  = PyStr.upper_char <$> PyStr.strip_chars l.
Proof.
  unfold PyStr.strip_chars.
  now rewrite lstrip_map_upper, <- fmap_rev, lstrip_map_upper, <- fmap_rev.
Qed.

Lemma lstrip_suffix (l : list ascii) :
  exists k, l = k ++ PyStr.lstrip_chars l.
Proof.
  induction l as [|a l [k IH]]; [now exists []|].
  cbn [PyStr.lstrip_chars]. destruct (PyStr.is_space a).
  - exists (a :: k). cbn. now rewrite <- IH.
  - now exists [].
Qed.

Lemma lstrip_head (l : list ascii) (a : ascii) :
  head (PyStr.lstrip_chars l) = Some a -> PyStr.is_space a = false.
Proof.
  induction l as [|b l IH]; [discriminate|].
  cbn [PyStr.lstrip_chars]. destruct (PyStr.is_space b) eqn:E; [exact IH|].
  now intros [= <-].
Qed.

Lemma lstrip_fixed (l : list ascii) :
  (forall a, head l = Some a -> PyStr.is_space a = false) ->
  PyStr.lstrip_chars l = l.
Proof.
  destruct l as [|a l]; [reflexivity|]. intros K. cbn [PyStr.lstrip_chars].
  now rewrite (K a eq_refl).
Qed.

Lemma strip_chars_idem (l : list ascii) :
  PyStr.strip_chars (PyStr.strip_chars l) = PyStr.strip_chars l.
Proof.
  unfold PyStr.strip_chars.
  set (l1 := PyStr.lstrip_chars l). set (l2 := PyStr.lstrip_chars (rev l1)).
  assert (PyStr.lstrip_chars (rev l2) = rev l2) as E1.
  { apply lstrip_fixed. intros a Ha.
    destruct (lstrip_suffix (rev l1)) as [k Ek]. fold l2 in Ek.
    destruct (rev l2) as [|b t] eqn:R; [discriminate|]. injection Ha as ->.
    apply (f_equal (@rev ascii)) in Ek. rewrite rev_involutive, rev_app_distr, R in Ek.
    apply (lstrip_head l). fold l1. now rewrite Ek. }
  rewrite E1, rev_involutive. f_equal.
  apply lstrip_fixed. intros a Ha. now apply (lstrip_head (rev l1)).
Qed.

Lemma strip_idem (s : string) : PyStr.strip (PyStr.strip s) = PyStr.strip s.
Proof.
  unfold PyStr.strip. now rewrite chars_text, strip_chars_idem.
Qed.

Lemma upper_idem (s : string) : PyStr.upper (PyStr.upper s) = PyStr.upper s.
Proof.
  unfold PyStr.upper. rewrite chars_text, <- list_fmap_compose. f_equal.
  apply list_fmap_ext. intros i a _. apply upper_char_idem.
Qed.

Lemma strip_upper (s : string) :
  PyStr.strip (PyStr.upper s) = PyStr.upper (PyStr.strip s).
Proof.
  unfold PyStr.strip, PyStr.upper. now rewrite !chars_text, strip_map_upper.
Qed.

Lemma chars_join (sep : string) (T : list string) :
  PyStr.chars (join_strs sep T) = join_chars (PyStr.chars sep) (PyStr.chars <$> T).
Proof.
  induction T as [|t [|t' T] IH]; [reflexivity..|].
  change (join_strs sep (t :: t' :: T)) with (t +:+ sep +:+ join_strs sep (t' :: T)).
  rewrite !chars_app, IH. reflexivity.
Qed.

Lemma split_chars_free (c : ascii) (t : list ascii) :
  c ∉ t -> PyStr.split_chars c t = [t].
Proof.
  induction t as [|a t IH]; [reflexivity|].
  intros [N1 N2]%not_elem_of_cons. cbn [PyStr.split_chars]. rewrite (IH N2).
  destruct (Ascii.eqb_spec a c); [congruence|reflexivity].
Qed.

Lemma split_chars_app (c : ascii) (t rest : list ascii) :
  c ∉ t ->
  PyStr.split_chars c (t ++ c :: rest) = t :: PyStr.split_chars c rest.
Proof.
  induction t as [|a t IH].
  - intros _. cbn [app PyStr.split_chars].
    destruct (PyStr.split_chars c rest) as [|w ws] eqn:E.
    + destruct rest; cbn in E; [discriminate|].
      destruct (PyStr.split_chars c rest); [discriminate|].
      destruct (Ascii.eqb _ c); discriminate.
    + now rewrite Ascii.eqb_refl.
  - intros [N1 N2]%not_elem_of_cons. cbn [app PyStr.split_chars].
    rewrite (IH N2). destruct (Ascii.eqb_spec a c); [congruence|reflexivity].
Qed.

Lemma split_join_chars (c : ascii) (L : list (list ascii)) :
  L <> [] -> Forall (fun t => c ∉ t) L ->
  PyStr.split_chars c (join_chars [c] L) = L.
Proof.
  induction L as [|t [|t' L] IH]; [done| |]; intros _ F.
  - apply split_chars_free. now apply Forall_inv in F.
  - change (join_chars [c] (t :: t' :: L)) with (t ++ c :: join_chars [c] (t' :: L)).
    rewrite split_chars_app by (now apply Forall_inv in F).
    rewrite IH; [reflexivity|done|now apply Forall_inv_tail in F].
Qed.

Lemma split_chars_pieces (c : ascii) (l p : list ascii) :
  p ∈ PyStr.split_chars c l -> c ∉ p /\ forall a, a ∈ p -> a ∈ l.
Proof.
  revert p. induction l as [|a l IH]; intros p.
  - cbn. intros ->%list_elem_of_singleton. split; [apply not_elem_of_nil|done].
  - cbn [PyStr.split_chars].
    destruct (PyStr.split_chars c l) as [|w ws] eqn:E.
    + intros ->%list_elem_of_singleton. exfalso.
      destruct l; cbn in E; [discriminate|].
      destruct (PyStr.split_chars c l); [discriminate|].
      destruct (Ascii.eqb _ c); discriminate.
    + destruct (Ascii.eqb_spec a c) as [->|N].
      * intros [->|Hp]%elem_of_cons.
        -- split; [apply not_elem_of_nil|inversion 1].
        -- destruct (IH p Hp) as [K1 K2]. split; [done|].
           intros b Hb. right. now apply K2.
      * intros [->|Hp]%elem_of_cons.
        -- destruct (IH w ltac:(left)) as [K1 K2]. split.
           ++ apply not_elem_of_cons. split; [congruence|done].
           ++ intros b [->|Hb]%elem_of_cons; [left|right; now apply K2].
        -- destruct (IH p ltac:(now right)) as [K1 K2]. split; [done|].
           intros b Hb. right. now apply K2.
Qed.

Lemma replace_slash_free (s : string) :
  "/"%char ∉ PyStr.chars (PyStr.replace "/" "," s).
Proof.
  unfold PyStr.replace. rewrite chars_text.
  induction (PyStr.chars s) as [|a l IH]; [apply not_elem_of_nil|].
  cbn [flat_map]. destruct (Ascii.eqb_spec a "/") as [->|N]; cbn.
  - apply not_elem_of_cons. split; [discriminate|exact IH].
  - apply not_elem_of_cons. split; [congruence|exact IH].
Qed.

Lemma replace_slash_join (L : list (list ascii)) :
  Forall (fun t => "/"%char ∉ t) L ->
  flat_map (fun a => if Ascii.eqb a "/" then PyStr.chars "," else [a])
    (join_chars ["/"%char] L)
  = join_chars [","%char] L.
Proof.
  assert (forall t, "/"%char ∉ t ->
            flat_map (fun a => if Ascii.eqb a "/" then PyStr.chars "," else [a]) t = t)
    as K.
  { induction t as [|a t IH]; [reflexivity|].
    intros [N1 N2]%not_elem_of_cons. cbn [flat_map]. rewrite (IH N2).
    destruct (Ascii.eqb_spec a "/"); [congruence|reflexivity]. }
  induction L as [|t [|t' L] IH]; [reflexivity| |]; intros F.
  - apply K. now apply Forall_inv in F.
  - change (join_chars ["/"%char] (t :: t' :: L))
      with (t ++ "/"%char :: join_chars ["/"%char] (t' :: L)).
    rewrite flat_map_app. cbn [flat_map].
    rewrite K by (now apply Forall_inv in F).
    rewrite IH by (now apply Forall_inv_tail in F). reflexivity.
Qed.

Lemma strip_chars_sub (l : list ascii) (a : ascii) :
  a ∈ PyStr.strip_chars l -> a ∈ l.
Proof.
  unfold PyStr.strip_chars. intros Ha.
  apply list_elem_of_In, in_rev, list_elem_of_In in Ha.
  destruct (lstrip_suffix (rev (PyStr.lstrip_chars l))) as [k Ek].
  assert (a ∈ rev (PyStr.lstrip_chars l)) as Hb
    by (rewrite Ek; apply elem_of_app; now right).
  apply list_elem_of_In, in_rev, list_elem_of_In in Hb.
  destruct (lstrip_suffix l) as [k' Ek']. rewrite Ek'. apply elem_of_app. now right.
Qed.

Lemma position_tokens_clean (s t : string) :
  t ∈ position_tokens s -> clean_token t.
Proof.
  unfold position_tokens. intros (p & -> & Hp)%list_elem_of_fmap.
  apply list_elem_of_filter in Hp as [N Hp].
  unfold PyStr.split in Hp. apply list_elem_of_fmap in Hp as (pc & -> & Hpc).
  apply split_chars_pieces in Hpc as [C S].
  split; [now rewrite strip_upper, strip_idem|].
  split; [apply upper_idem|]. split.
  - intros E. apply N. apply (f_equal PyStr.chars) in E.
    unfold PyStr.upper in E. rewrite chars_text in E.
    apply fmap_nil_inv in E. rewrite <- (text_chars (PyStr.strip _)). now rewrite E.
  - assert (forall a, a ∈ PyStr.chars (PyStr.upper (PyStr.strip (PyStr.text pc))) ->
                      a <> ","%char /\ a <> "/"%char) as K.
    { intros a Ha. unfold PyStr.upper, PyStr.strip in Ha.
      rewrite !chars_text in Ha. apply list_elem_of_fmap in Ha as (b & -> & Hb).
      apply strip_chars_sub in Hb.
      assert (b <> ","%char) by (intros ->; contradiction).
      assert (b <> "/"%char)
        by (intros ->; apply (replace_slash_free s); now apply S).
      split; intros E; destruct (upper_char_mark b); auto. }
    split; intros Ha; apply K in Ha; tauto.
Qed.

Lemma filter_all {A} (P : A -> Prop) `{!forall x, Decision (P x)} (l : list A) :
  Forall P l -> filter P l = l.
Proof.
  induction 1 as [|x l Hx _ IH]; [reflexivity|].
  rewrite filter_cons_True by exact Hx. now rewrite IH.
Qed.

Lemma position_tokens_join (T : list string) :
  Forall clean_token T -> position_tokens (join_strs "/" T) = T.
Proof.
  intros F. destruct (decide (T = [])) as [->|NE]; [reflexivity|].
  unfold position_tokens, PyStr.split.
  assert (PyStr.chars (PyStr.replace "/" "," (join_strs "/" T))
          = join_chars [","%char] (PyStr.chars <$> T)) as ->.
  { unfold PyStr.replace. rewrite chars_text, chars_join.
    apply replace_slash_join. apply Forall_fmap. eapply Forall_impl; [exact F|].
    intros t (_ & _ & _ & _ & K). exact K. }
  rewrite split_join_chars.
  - rewrite <- list_fmap_compose.
    rewrite (list_fmap_ext _ id T) by (intros i t _; apply text_chars).
    rewrite list_fmap_id.
    rewrite filter_all.
    + rewrite (list_fmap_ext _ id T); [apply list_fmap_id|].
      intros i t Ht. apply list_elem_of_lookup_2 in Ht.
      rewrite Forall_forall in F. destruct (F t Ht) as (E1 & E2 & _).
      cbn. now rewrite E1, E2.
    + eapply Forall_impl; [exact F|]. intros t (E1 & _ & N & _). now rewrite E1.
  - intros E. apply fmap_nil_inv in E. contradiction.
  - apply Forall_fmap. eapply Forall_impl; [exact F|].
    intros t (_ & _ & _ & K & _). exact K.
Qed.

Lemma sorted_set_elem (l : list string) (x : string) :
  x ∈ sorted_set l <-> x ∈ l.
Proof.
  unfold sorted_set, sorted_strs.
  now rewrite merge_sort_Permutation, elem_of_elements, elem_of_list_to_set.
Qed.

Lemma sorted_set_fixed (T : list string) :
  Sorted str_le T -> NoDup T -> sorted_set T = T.
Proof.
  intros S D. unfold sorted_set, sorted_strs.
  apply (Sorted_unique str_le); [apply Sorted_merge_sort, _|exact S|].
  rewrite merge_sort_Permutation. now apply elements_list_to_set.
Qed.

Lemma sorted_set_sorted (l : list string) :
  Sorted str_le (sorted_set l) /\ NoDup (sorted_set l).
Proof.
  unfold sorted_set, sorted_strs. split; [apply Sorted_merge_sort, _|].
  rewrite merge_sort_Permutation. apply NoDup_elements.
Qed.

Lemma display_pos_text (s : string) :
  display_pos (inl s) = join_strs "/" (sorted_set (position_tokens s)).
Proof. reflexivity. Qed.

(** X15.  What [display_pos] makes of a text it reads back unchanged. *)
Theorem display_pos_idempotent (s : string) :
  display_pos (inl (display_pos (inl s))) = display_pos (inl s).
Proof.
  rewrite !display_pos_text.
  rewrite position_tokens_join.
  - destruct (sorted_set_sorted (position_tokens s)) as [S D].
    now rewrite sorted_set_fixed.
  - apply Forall_forall. intros t Ht.
    apply (proj1 (sorted_set_elem _ _)) in Ht.
    now apply position_tokens_clean in Ht.
Qed.

(** X16.  The order, the repeats and the letter case of the names given do not
    show: two lists with the same upper-cased names are displayed alike, and
    so are two texts with the same names. *)
Theorem display_pos_same_names :
  (forall l l' : list string,
     (forall x, x ∈ PyStr.upper <$> l <-> x ∈ PyStr.upper <$> l') ->
     display_pos (inr l) = display_pos (inr l')) /\
  (forall s s' : string,
     (forall x, x ∈ position_tokens s <-> x ∈ position_tokens s') ->
     display_pos (inl s) = display_pos (inl s')).
Proof.
  assert (forall l l' : list string,
             (forall x, x ∈ l <-> x ∈ l') -> sorted_set l = sorted_set l') as K.
  { intros l l' E. unfold sorted_set. f_equal. f_equal.
    apply set_eq. intros x. now rewrite !elem_of_list_to_set. }
  split.
  - intros l l' E. unfold display_pos. now rewrite (K _ _ E).
  - intros s s' E. rewrite !display_pos_text. now rewrite (K _ _ E).
Qed.

(** ** The routes *)

(** X17.  A POST never renders the page: it redirects or raises.  When it
    redirects, the session it leaves is the same whatever the session was
    before, all five keys being written; when it raises, the session is the
    one before. *)
Theorem player_pool_post `{Runtime} (df_raw : frame)
    (form : gmap string (list string)) (session : Session) :
  match player_pool df_raw (Some form) session with
  | (session', Ok r) =>
      r = RedirectLineups /\
      forall other, player_pool df_raw (Some form) other = (session', Ok r)
  | (session', Raise e) => session' = session
  end.
Proof.
  unfold player_pool.
  destruct (load_players df_raw) as [[df teams]|e]; [|reflexivity].
  destruct (from_option PyStr.to_int (Ok 1) (form_get form "num_lineups"));
    [|reflexivity].
  split; reflexivity.
Qed.

(** X18.  The page of a GET leaves the session as it was, shows no missing
    value in any cell, and shows no row of an excluded player. *)
Theorem player_pool_get `{Runtime} (df_raw : frame) (session session' : Session)
    (data : list (gmap string pyval)) (teams locked_players excluded_players
      : list string) (num_lineups : Z) (time_filter stack_team : string) :
  player_pool df_raw None session
  = (session', Ok (PlayerPoolPage data teams locked_players excluded_players
                     num_lineups time_filter stack_team)) ->
  session' = session /\
  excluded_players = default [] (sess_excluded_players session) /\
  forall rec, rec ∈ data ->
    (forall k v, rec !! k = Some v -> isna v = false) /\
    exists id, rec !! "unique_id" = Some (PStr id) /\ id ∉ excluded_players.
Proof.
  unfold player_pool.
  destruct (load_players df_raw) as [[df teams']|e]; [|discriminate].
  intros [= <- <- <- <- <- <- <- <-]. split; [reflexivity|].
  split; [reflexivity|].
  intros rec (r & -> & Hr)%list_elem_of_fmap. split.
  - intros k v. unfold to_record. rewrite lookup_fmap.
    destruct (_ !! k) as [v0|]; [|discriminate]. cbn [fmap option_fmap option_map].
    intros [= <-]. destruct (isna v0) eqn:N; [reflexivity|exact N].
  - exists (unique_id r). split.
    + unfold to_record. now rewrite lookup_fmap, lookup_insert_eq.
    + unfold exclude_players in Hr. destruct (bool_decide _) eqn:D.
      * apply bool_decide_eq_true in D. rewrite D. apply not_elem_of_nil.
      * now apply list_elem_of_filter in Hr as [? _].
Qed.

(** X19.  After a POST that redirects, the lineups page (read from the same
    sheet) is the build over the time-filtered table with the form's locks,
    exclusions, count and stack; the exclusion of lines 260-261 adds nothing
    to the one inside the build. *)
Theorem lineups_page_after_post `{Runtime} `{Optimizer} (df_raw : frame)
    (form : gmap string (list string)) (session : Session)
    (df : list prow) (teams : list string) (n : Z) :
  load_players df_raw = Ok (df, teams) ->
  from_option PyStr.to_int (Ok 1) (form_get form "num_lineups") = Ok n ->
  (player_pool df_raw (Some form) session).2 = Ok RedirectLineups /\
  lineups_page df_raw (player_pool df_raw (Some form) session).1
  = let time_filter := default "all" (form_get form "time_filter") in
    let built :=
      build_lineups (filter_by_game_time df time_filter) n
        (form_getlist form "lock_player") (form_getlist form "exclude_player")
        (default "" (form_get form "stack_team")) in
    (built.1, lineups ← built.2; Ok (LineupsPage lineups n time_filter)).
Proof.
  intros L N. unfold player_pool, lineups_page. rewrite L, N.
  cbn [fst snd]. split; [reflexivity|].
  cbn [sess_locked_players sess_excluded_players sess_num_lineups
       sess_time_filter sess_stack_team default from_option]. cbv zeta.
  assert (forall X e l st,
            build_lineups (exclude_players e X) n l e st
            = build_lineups X n l e st) as E
    by (intros; unfold build_lineups, prepare; now rewrite load_pool_excluded).
  rewrite E. now destruct (build_lineups _ _ _ _ _) as [log result].
Qed.

(** ** From the loader to the pool *)

Lemma load_row_adjusted `{Runtime} (df_raw : frame) (r : Z * list pyval)
    (b : Z * gmap string pyval) :
  load_row df_raw r = Ok (Some b) ->
  exists adj, b.2 !! "ADJ PROJECTION" = Some (PFloat adj).
Proof.
  rewrite load_row_unfold. cbv zeta.
  destruct (decide (0 < _)) as [S|]; [|discriminate].
  destruct (compute_adjusted_proj _) as [adj|]; [|discriminate].
  cbn [mbind res_bind].
  destruct (decide (_ = true)) as [F|]; [|discriminate].
  intros [= <-]. exists adj. unfold set_pos. cbn [fst snd].
  rewrite lookup_insert_ne by done. now rewrite lookup_insert_eq.
Qed.

Lemma player_of_row_with_game_min `{Runtime} (r : prow) :
  player_of_row (with_game_min r) = player_of_row r.
Proof.
  unfold player_of_row, with_game_min, set_cell, get. cbn [cells unique_id].
  now rewrite !lookup_insert_ne by done.
Qed.

Lemma player_of_row_cells `{Runtime} (r : prow) (z : Z) (adj : float) :
  cells r !! "SALARY" = Some (PInt z) -> 0 < z ->
  cells r !! "ADJ PROJECTION" = Some (PFloat adj) ->
  (exists o, player_of_row r = Ok o) /\
  forall p, player_of_row r = Ok (Some p) -> salary p = z /\ fppg p = adj.
Proof.
  intros S Z A. unfold player_of_row, get. rewrite S, A.
  cbn [default from_option id py_truthy].
  replace (z =? 0) with false by (symmetry; apply Z.eqb_neq; lia).
  cbn [negb py_int py_float]. unfold safe_float, mbind, res_bind.
  cbn [py_float].
  destruct (_ || _ || _ || _); split; eauto; intros p [= <-]; done.
Qed.

Lemma loaded_table_rows `{Runtime} (df_raw : frame) (table : list prow)
    (all_teams excluded_players : list string) (time_filter : string)
    (r' : prow) :
  load_players df_raw = Ok (table, all_teams) ->
  r' ∈ exclude_players excluded_players (filter_by_game_time table time_filter) ->
  exists r z adj,
    r ∈ table /\ r' = with_game_min r /\
    cells r !! "SALARY" = Some (PInt z) /\ 0 < z /\
    cells r !! "ADJ PROJECTION" = Some (PFloat adj).
Proof.
  intros L Hr. destruct (load_players_inv _ _ _ L) as (rs & M & ->).
  destruct (load_rows_kept _ _ _ M) as [_ K].
  assert (r' ∈ filter_by_game_time
                 (table_row <$> omap (M := list) id rs) time_filter) as Hr'.
  { unfold exclude_players in Hr. destruct (bool_decide _); [exact Hr|].
    now apply list_elem_of_filter in Hr as [_ ?]. }
  apply filter_by_game_time_elem in Hr' as (r0 & Hr0 & -> & _).
  pose proof Hr0 as Hr1.
  apply list_elem_of_fmap in Hr1 as (b & -> & Hb).
  destruct (K b Hb) as (r & _ & E).
  destruct (load_row_some _ _ _ E) as (_ & S & _ & Sal & _).
  destruct (load_row_adjusted _ _ _ E) as [adj A].
  exists (table_row b), (raw_salary df_raw r.2), adj. done.
Qed.

Lemma loaded_table_builds `{Runtime} (df_raw : frame) (table : list prow)
    (all_teams excluded_players : list string) (time_filter : string) :
  load_players df_raw = Ok (table, all_teams) ->
  exists ps,
    build_players
      (exclude_players excluded_players (filter_by_game_time table time_filter))
    = Ok ps.
Proof.
  intros L.
  destruct (map_res_total player_of_row
              (exclude_players excluded_players
                 (filter_by_game_time table time_filter))) as [os E].
  { intros r' Hr.
    destruct (loaded_table_rows _ _ _ _ _ _ L Hr)
      as (r & z & adj & _ & -> & S & Z & A).
    rewrite player_of_row_with_game_min.
    now destruct (player_of_row_cells r z adj S Z A) as [? _]. }
  exists (omap (M := list) id os). unfold build_players. now rewrite E.
Qed.

(** X20.  The table of [load_players], filtered by time and exclusion as the
    routes do, never makes the build raise on a row: every row is skipped or
    becomes a player record, and a record carries its row's id, its SALARY
    cell and its ADJ PROJECTION cell. *)
Theorem loaded_table_pool `{Runtime} (df_raw : frame) (table : list prow)
    (all_teams excluded_players : list string) (time_filter : string) :
  load_players df_raw = Ok (table, all_teams) ->
  exists ps,
    build_players
      (exclude_players excluded_players (filter_by_game_time table time_filter))
    = Ok ps /\
    forall p, p ∈ ps ->
      exists r, r ∈ table /\ player_id p = unique_id r /\
                cells r !! "SALARY" = Some (PInt (salary p)) /\
                cells r !! "ADJ PROJECTION" = Some (PFloat (fppg p)).
Proof.
  intros L.
  destruct (loaded_table_builds _ _ _ excluded_players time_filter L) as [ps B].
  exists ps. split; [exact B|].
  destruct (build_players_from _ _ B) as [F _].
  intros p Hp. destruct (F p Hp) as (r' & Hr & P).
  destruct (loaded_table_rows _ _ _ _ _ _ L Hr)
    as (r & z & adj & Hr0 & -> & S & Z & A).
  rewrite player_of_row_with_game_min in P.
  destruct (player_of_row_cells r z adj S Z A) as [_ Q].
  destruct (Q p P) as [-> ->].
  destruct (player_of_row_some _ _ P) as (_ & _ & _ & _ & I & _).
  exists r. done.
Qed.

Lemma force_all_raises `{Optimizer} (ps : list Player) (o : optimizer) (e : exn) :
  force_all ps o = Raise e ->
  exists o' p, p ∈ ps /\ opt_add_player_to_lineup o' p = Raise e.
Proof.
  revert o. induction ps as [|p ps IH]; intros o; [discriminate|].
  cbn [force_all]. destruct (opt_add_player_to_lineup o p) as [o'|e'] eqn:E.
  - cbn [mbind res_bind]. intros K. destruct (IH _ K) as (o2 & p2 & Hp & E2).
    exists o2, p2. split; [now right|exact E2].
  - intros [= ->]. exists o, p. split; [left|exact E].
Qed.

(** X21.  The lineups page raises only what [load_players] raises or what a
    call of the optimizer raises, when it is given the pool, the team bounds
    or a locked player: no row of the table and nothing in the session makes
    it raise. *)
Theorem lineups_page_raises `{Runtime} `{Optimizer} (df_raw : frame)
    (session : Session) (log : list string) (e : exn) :
  lineups_page df_raw session = (log, Raise e) ->
  load_players df_raw = Raise e \/
  (exists ps, opt_load_players get_optimizer ps = Raise e) \/
  (exists o, opt_set_total_teams o 4 6 = Raise e) \/
  (exists o p, opt_add_player_to_lineup o p = Raise e).
Proof.
  unfold lineups_page.
  destruct (load_players df_raw) as [[df teams]|e0] eqn:L;
    [|intros [= _ <-]; now left].
  cbv zeta.
  set (excl := default [] (sess_excluded_players session)).
  set (tf := default "all" (sess_time_filter session)).
  destruct (build_lineups _ _ _ _ _) as [log' [ls|e1]] eqn:B; [discriminate|].
  intros [= _ <-]. right. revert B. unfold build_lineups.
  destruct (load_pool (exclude_players excl (filter_by_game_time df tf)) excl)
    as [[ps o1]|e2] eqn:P.
  - rewrite (prepare_matched _ _ _ _ _ _ P).
    destruct (opt_set_total_teams _ 4 6) as [o3|e3] eqn:T.
    + cbn [mbind res_bind].
      destruct (force_all _ o3) as [o4|e4] eqn:F.
      * destruct (opt_optimize o4 _) as [cands fin].
        destruct (generate _ _ _ _ _). discriminate.
      * intros [= _ <-]. destruct (force_all_raises _ _ _ F) as (o' & p & _ & E).
        right. right. eauto.
    + cbn [mbind res_bind]. intros [= _ <-]. right. left. eauto.
  - unfold prepare. rewrite P. intros [= _ <-]. left.
    rewrite load_pool_excluded in P. unfold load_pool in P.
    fold (exclude_players excl (filter_by_game_time df tf)) in P.
    destruct (loaded_table_builds _ _ _ excl tf L) as [ps B]. rewrite B in P.
    cbn [mbind res_bind] in P.
    destruct (opt_load_players get_optimizer ps) as [o|e3] eqn:O; [discriminate|].
    injection P as <-. eauto.
Qed.

Lemma to_int_raises (s : string) (e : exn) :
  PyStr.to_int s = Raise e -> e = ValueError.
Proof.
  unfold PyStr.to_int. intros E. repeat case_match; congruence.
Qed.

(** X22.  The pool page raises only what [load_players] raises, or, on a POST,
    [ValueError] for a num_lineups field that is no integer; the session is
    then the one before. *)
Theorem player_pool_raises `{Runtime} (df_raw : frame)
    (post : option (gmap string (list string))) (session session' : Session)
    (e : exn) :
  player_pool df_raw post session = (session', Raise e) ->
  session' = session /\
  (load_players df_raw = Raise e \/
   e = ValueError /\
   exists form t, post = Some form /\
                  form_get form "num_lineups" = Some t /\
                  PyStr.to_int t = Raise ValueError).
Proof.
  unfold player_pool.
  destruct (load_players df_raw) as [[df teams]|e0];
    [|intros [= <- <-]; split; [reflexivity|now left]].
  destruct post as [form|]; [|discriminate].
  destruct (form_get form "num_lineups") as [t|] eqn:G;
    cbn [from_option]; [|discriminate].
  destruct (PyStr.to_int t) as [n|e1] eqn:T; [discriminate|].
  intros [= <- <-]. split; [reflexivity|]. right.
  pose proof (to_int_raises _ _ T) as ->. split; [reflexivity|].
  exists form, t. done.
Qed.

(** ** Worked examples of the further properties *)

(** The pool of the sample table: its first record is Josh Allen's. *)
Lemma load_pool_rosterable_witness :
  exists ps o p,
    @load_pool sample_runtime (sample_optimizer false sample_cands None)
      sample_table [] = Ok (ps, o) /\
    p ∈ ps /\ player_id p = "Josh Allen_0" /\
    0 < salary p /\ (fppg p <=? 0)%float = false /\
    positions p <> [] /\ positions p <> [""].
Proof.
  destruct (@load_pool sample_runtime (sample_optimizer false sample_cands None)
              sample_table []) as [[ps o]|e] eqn:L;
    [|vm_compute in L; discriminate].
  pose proof L as L'. vm_compute in L'. injection L' as Eps _.
  destruct ps as [|p ps]; [discriminate|].
  exists (p :: ps), o, p. split; [reflexivity|]. split; [left|].
  split; [injection Eps as <- _; reflexivity|].
  apply (@load_pool_rosterable sample_runtime
           (sample_optimizer false sample_cands None) sample_table []
           (p :: ps) o L). left.
Defined.

(** With one Mike Williams excluded, the other two rows make the pool. *)
Lemma load_pool_ids_witness :
  exists ps o,
    @load_pool sample_runtime (sample_optimizer false sample_cands None)
      sample_table ["Mike Williams_1"] = Ok (ps, o) /\
    player_id <$> ps = ["Josh Allen_0"; "Mike Williams_2"] /\
    player_id <$> ps `sublist_of` unique_id <$> sample_table /\
    forall p, p ∈ ps -> player_id p ∉ ["Mike Williams_1"].
Proof.
  destruct (@load_pool sample_runtime (sample_optimizer false sample_cands None)
              sample_table ["Mike Williams_1"]) as [[ps o]|e] eqn:L;
    [|vm_compute in L; discriminate].
  exists ps, o. split; [reflexivity|]. split.
  - pose proof L as L'. vm_compute in L'. injection L' as <- _. reflexivity.
  - exact (@load_pool_ids sample_runtime
             (sample_optimizer false sample_cands None) sample_table
             ["Mike Williams_1"] ps o L).
Defined.

(** The two lineups of the sample build. *)
Lemma build_lineups_slots_witness :
  exists log ls,
    @build_lineups sample_runtime (sample_optimizer false sample_cands None)
      sample_table 2 [] [] "" = (log, Ok ls) /\
    length ls = 2%nat /\
    forall sl, sl ∈ ls ->
      (length sl <= 9)%nat /\ sl.*1 = take (length sl) DK_NFL_SLOTS.
Proof.
  destruct (@build_lineups sample_runtime
              (sample_optimizer false sample_cands None)
              sample_table 2 [] [] "") as [log [ls|e]] eqn:B;
    [|vm_compute in B; discriminate].
  exists log, ls. split; [reflexivity|]. split.
  - pose proof B as B'. vm_compute in B'. injection B' as _ <-. reflexivity.
  - intros sl Hsl.
    destruct (@build_lineups_slots sample_runtime
                (sample_optimizer false sample_cands None)
                sample_table 2 [] [] "" log ls B sl Hsl) as (K1 & K2 & _).
    split; assumption.
Defined.

(** A request for 0 lineups returns one. *)
Lemma build_lineups_nonpositive_witness :
  (@build_lineups sample_runtime (sample_optimizer false sample_cands None)
     sample_table 0 [] [] "").2
  = Ok [slot_players (sample_lineup ["a"; "b"])].
Proof.
  destruct (@prepare sample_runtime (sample_optimizer false sample_cands None)
              sample_table [] [] "") as [log1 [[ps o]|e]] eqn:P;
    [|vm_compute in P; discriminate].
  rewrite (@build_lineups_nonpositive sample_runtime
             (sample_optimizer false sample_cands None)
             sample_table 0 [] [] "" log1 ps o ltac:(lia) P).
  reflexivity.
Defined.

(** "inf" and "$nan" are read as floats and yield 0. *)
Lemma parse_salary_not_finite_witness :
  @parse_salary sample_runtime (PStr "inf") = 0 /\
  @parse_salary sample_runtime (PStr "$nan") = 0.
Proof.
  split.
  - apply (@parse_salary_not_finite sample_runtime (PStr "inf") infinity);
      vm_compute; reflexivity.
  - apply (@parse_salary_not_finite sample_runtime (PStr "$nan") nan);
      vm_compute; reflexivity.
Defined.

(** A sheet of names, salaries, teams and positions only. *)
Lemma load_players_no_projection_witness :
  @load_players sample_runtime no_projection_frame = Raise AttributeError.
Proof.
  apply (@load_players_no_projection sample_runtime no_projection_frame).
  apply Forall_forall. refine (bool_decide_unpack _ _). vm_compute. exact I.
Defined.

(** The sample frame has a PROJECTED POINTS column and small numbers. *)
Lemma load_players_returns_witness :
  exists table all_teams,
    @load_players sample_runtime sample_frame = Ok (table, all_teams).
Proof.
  apply (@load_players_returns sample_runtime sample_frame).
  - refine (bool_decide_unpack _ _). vm_compute. exact I.
  - assert (Forall (fun r =>
              Forall (fun k =>
                in_float_range (raw_cells sample_frame r.2 !! k) = true)
                ["DVP"; "L5 AVG"; "SZ AVG"])
              (rows sample_frame)) as F
      by (refine (bool_decide_unpack _ _); vm_compute; exact I).
    intros r k Hr Hk. rewrite Forall_forall in F. specialize (F r Hr).
    rewrite Forall_forall in F. exact (F k Hk).
Defined.

(** What the sample frame loads into. *)
Lemma sample_frame_loads :
  @load_players sample_runtime sample_frame
  = Ok (sample_table, ["BUF"; "NYJ"; "PIT"]).
Proof. vm_compute. reflexivity. Qed.

(** The teams of the sample frame, the row without a team left out. *)
Lemma load_players_team_list_witness :
  exists table all_teams,
    @load_players sample_runtime sample_frame = Ok (table, all_teams) /\
    all_teams = ["BUF"; "NYJ"; "PIT"] /\
    Sorted str_le all_teams /\ NoDup all_teams.
Proof.
  exists sample_table, ["BUF"; "NYJ"; "PIT"].
  split; [exact sample_frame_loads|]. split; [reflexivity|].
  destruct (@load_players_team_list sample_runtime sample_frame sample_table
              ["BUF"; "NYJ"; "PIT"] sample_frame_loads) as (S & D & _).
  split; assumption.
Defined.

(** The page of a GET under the sample session. *)
Lemma sample_page_loads :
  @player_pool sample_runtime sample_frame None sample_session
  = (sample_session,
     Ok (PlayerPoolPage
           (to_record <$> exclude_players ["Mike Williams_1"]
                            (filter_by_game_time sample_table "all"))
           ["BUF"; "NYJ"; "PIT"] ["Josh Allen_0"] ["Mike Williams_1"] 2
           "all" "BUF")).
Proof. unfold player_pool. rewrite sample_frame_loads. reflexivity. Qed.

(** Two of the three loaded rows are shown, the excluded one is not. *)
Lemma player_pool_get_witness :
  exists data teams,
    @player_pool sample_runtime sample_frame None sample_session
    = (sample_session,
       Ok (PlayerPoolPage data teams ["Josh Allen_0"] ["Mike Williams_1"] 2
             "all" "BUF")) /\
    length data = 2%nat /\
    forall rec, rec ∈ data ->
      (forall k v, rec !! k = Some v -> isna v = false) /\
      exists id, rec !! "unique_id" = Some (PStr id) /\
                 id ∉ ["Mike Williams_1"].
Proof.
  eexists _, _. split; [exact sample_page_loads|].
  split; [vm_compute; reflexivity|].
  exact (proj2 (proj2 (@player_pool_get sample_runtime sample_frame
                         sample_session _ _ _ _ _ _ _ _ sample_page_loads))).
Defined.

(** The sample form posted into an empty session, then the lineups page. *)
Lemma lineups_page_after_post_witness :
  (@player_pool sample_runtime sample_frame (Some sample_form)
     empty_session).2 = Ok RedirectLineups /\
  @lineups_page sample_runtime (sample_optimizer false sample_cands None)
    sample_frame
    (@player_pool sample_runtime sample_frame (Some sample_form)
       empty_session).1
  = ([], Ok (LineupsPage [slot_players (sample_lineup ["a"; "b"]);
                          slot_players (sample_lineup ["c"; "a"])] 2 "late")).
Proof.
  destruct (@lineups_page_after_post sample_runtime
              (sample_optimizer false sample_cands None) sample_frame
              sample_form empty_session sample_table ["BUF"; "NYJ"; "PIT"] 2
              sample_frame_loads)
    as [K1 K2]; [vm_compute; reflexivity|].
  split; [exact K1|]. rewrite K2. vm_compute. reflexivity.
Defined.

(** A row whose salary cannot be read makes the build raise. *)
Lemma build_lineups_raises_witness :
  (@build_lineups sample_runtime (sample_optimizer false sample_cands None)
     broken_table 1 [] [] "").2 = Raise ValueError.
Proof.
  apply (proj2 (@build_lineups_raises sample_runtime
                  (sample_optimizer false sample_cands None)
                  broken_table 1 [] [] "" ValueError)).
  left. vm_compute. reflexivity.
Defined.

(** "13:05" is 785 minutes; a missing cell is no time. *)
Lemma parse_hour_minute_24h_witness :
  parse_hour_minute (PStr (clock_text 13 5 "")) = Some (13 * 60 + 5) /\
  parse_hour_minute PNone = None.
Proof.
  split.
  - apply (proj1 parse_hour_minute_24h 13 5); lia.
  - apply (proj2 parse_hour_minute_24h PNone). discriminate.
Defined.

(** "wr/rb" and "RB, WR ,rb" are displayed alike. *)
Lemma display_pos_same_names_witness :
  display_pos (inl "wr/rb") = display_pos (inl "RB, WR ,rb") /\
  display_pos (inr ["wr"; "rb"]) = display_pos (inr ["RB"; "WR"; "rb"]).
Proof.
  split.
  - apply (proj2 display_pos_same_names "wr/rb" "RB, WR ,rb").
    intros x. vm_compute position_tokens.
    rewrite !elem_of_cons, !elem_of_nil. tauto.
  - apply (proj1 display_pos_same_names ["wr"; "rb"] ["RB"; "WR"; "rb"]).
    intros x. vm_compute (fmap _ _).
    rewrite !elem_of_cons, !elem_of_nil. tauto.
Defined.

(** Under the late filter and the exclusion, one row makes the pool. *)
Lemma loaded_table_pool_witness :
  exists ps,
    @build_players sample_runtime
      (exclude_players ["Mike Williams_1"]
         (filter_by_game_time sample_table "late")) = Ok ps /\
    player_id <$> ps = ["Mike Williams_2"] /\
    forall p, p ∈ ps ->
      exists r, r ∈ sample_table /\ player_id p = unique_id r /\
                cells r !! "SALARY" = Some (PInt (salary p)) /\
                cells r !! "ADJ PROJECTION" = Some (PFloat (fppg p)).
Proof.
  destruct (@loaded_table_pool sample_runtime sample_frame sample_table
              ["BUF"; "NYJ"; "PIT"] ["Mike Williams_1"] "late"
              sample_frame_loads) as (ps & B & K).
  exists ps. split; [exact B|]. split; [|exact K].
  vm_compute in B. injection B as <-. reflexivity.
Defined.

(** A sheet with no projection column: the page raises what the loader
    raises. *)
Lemma lineups_page_raises_witness :
  @load_players sample_runtime no_projection_frame = Raise AttributeError \/
  (exists ps,
     @opt_load_players (sample_optimizer false sample_cands None)
       (@get_optimizer (sample_optimizer false sample_cands None)) ps
     = Raise AttributeError) \/
  (exists o,
     @opt_set_total_teams (sample_optimizer false sample_cands None) o 4 6
     = Raise AttributeError) \/
  (exists o p,
     @opt_add_player_to_lineup (sample_optimizer false sample_cands None) o p
     = Raise AttributeError).
Proof.
  apply (@lineups_page_raises sample_runtime
           (sample_optimizer false sample_cands None) no_projection_frame
           empty_session []).
  vm_compute. reflexivity.
Defined.

(** A form that asks for "two" lineups. *)
Lemma player_pool_raises_witness :
  @player_pool sample_runtime sample_frame (Some bad_form) sample_session
  = (sample_session, Raise ValueError) /\
  exists form t, Some bad_form = Some form /\
                 form_get form "num_lineups" = Some t /\
                 PyStr.to_int t = Raise ValueError.
Proof.
  assert (@player_pool sample_runtime sample_frame (Some bad_form) sample_session
          = (sample_session, Raise ValueError)) as P
    by (unfold player_pool; rewrite sample_frame_loads; reflexivity).
  split; [exact P|].
  destruct (@player_pool_raises sample_runtime sample_frame (Some bad_form)
              sample_session sample_session ValueError P) as [_ [K|[_ K]]].
  - rewrite sample_frame_loads in K. discriminate.
  - exact K.
Defined.
